(** * Product store service: the request handlers of [service/routes.py]

    A shallow embedding of the Flask handlers of the product catalogue
    service, of the part of the [Product] model they call, and of the
    properties its specification states about them.

    Layout:
    - Python strings and [str.lower];
    - decimal prices and their text form;
    - the [Category] enumeration, as an interface;
    - JSON values, [Product], [serialize] and [deserialize];
    - the persistence store and the data access methods;
    - requests, responses and the handlers of [service/routes.py];
    - the properties. *)

From Stdlib Require Import String Ascii List ZArith NArith Bool Lia.
From Stdlib Require Import DecimalString DecimalZ.
Import ListNotations.

Local Open Scope string_scope.
Local Open Scope Z_scope.

(* ===================================================================== *)
(** ** HTTP status codes ([service.common.status]) *)
(* ===================================================================== *)

Module status.

Definition HTTP_200_OK : Z := 200.
Definition HTTP_201_CREATED : Z := 201.
Definition HTTP_204_NO_CONTENT : Z := 204.
Definition HTTP_400_BAD_REQUEST : Z := 400.
Definition HTTP_404_NOT_FOUND : Z := 404.
Definition HTTP_415_UNSUPPORTED_MEDIA_TYPE : Z := 415.
Definition HTTP_500_INTERNAL_SERVER_ERROR : Z := 500.

End status.

(* ===================================================================== *)
(** ** Python strings *)
(* ===================================================================== *)

(** [str.lower()] on the ASCII range: the letters [A-Z] move to [a-z], every
    other character stays.  Outside ASCII Python's [lower] has more cases;
    none of them yields a letter of the words the handlers compare with
    (["name"], ["category"], ["available"], ["true"]), so the comparisons
    below are decided by the ASCII part. *)
Definition is_upper (c : ascii) : bool :=
  ((65 <=? N_of_ascii c) && (N_of_ascii c <=? 90))%N.

Definition lower_ascii (c : ascii) : ascii :=
  if is_upper c then ascii_of_N (N_of_ascii c + 32) else c.

Fixpoint lower (s : string) : string :=
  match s with
  | EmptyString => EmptyString
  | String c r => String (lower_ascii c) (lower r)
  end.

(** Two characters are the same letter up to case. *)
Definition same_letter (a b : ascii) : bool :=
  Ascii.eqb a b
  || (is_upper a && Ascii.eqb (ascii_of_N (N_of_ascii a + 32)) b)
  || (is_upper b && Ascii.eqb (ascii_of_N (N_of_ascii b + 32)) a).

(** Equality of two strings that ignores the case of letters, position by
    position.  It does not go through [lower]. *)
Fixpoint equal_ignoring_case (s t : string) : bool :=
  match s, t with
  | EmptyString, EmptyString => true
  | String a s', String b t' => same_letter a b && equal_ignoring_case s' t'
  | _, _ => false
  end.

(** No upper-case letter in the string. *)
Fixpoint no_upper (s : string) : bool :=
  match s with
  | EmptyString => true
  | String c r => negb (is_upper c) && no_upper r
  end.

(** Prefix removal, for the paths of the routes. *)
Fixpoint strip_prefix (p s : string) : option string :=
  match p with
  | EmptyString => Some s
  | String a p' =>
      match s with
      | EmptyString => None
      | String b s' => if Ascii.eqb a b then strip_prefix p' s' else None
      end
  end.

(** [str(n)] and [int(s)] on Python integers. *)
Definition str_int (n : Z) : string := NilZero.string_of_int (Z.to_int n).

Definition int_of_str (s : string) : option Z :=
  option_map Z.of_int (NilZero.int_of_string s).

(* ===================================================================== *)
(** ** Decimal prices *)
(* ===================================================================== *)

(** Modelled from the spec: the [price] column is a "decimal value ...
    accepted as numeric or numeric-string on input, always serialized as a
    string on output"; the class that holds it ([decimal.Decimal]) is not
    part of the sources.  A decimal is a sign, its digits (most significant
    first, as characters) and the number of digits after the point.  The
    model covers fixed-point values written without an exponent. *)
Record Decimal : Type := mkDecimal {
  dec_sign : bool;        (* true: negative *)
  dec_int : string;       (* the digits of the coefficient *)
  dec_scale : nat         (* digits after the point *)
}.

Definition is_digit (c : ascii) : bool :=
  ((48 <=? N_of_ascii c) && (N_of_ascii c <=? 57))%N.

Fixpoint all_digits (s : string) : bool :=
  match s with
  | EmptyString => true
  | String c r => is_digit c && all_digits r
  end.

Fixpoint take (n : nat) (s : string) : string :=
  match n, s with
  | S n', String c r => String c (take n' r)
  | _, _ => EmptyString
  end.

Fixpoint drop (n : nat) (s : string) : string :=
  match n, s with
  | S n', String _ r => drop n' r
  | _, _ => s
  end.

Fixpoint zeros (n : nat) : string :=
  match n with
  | O => EmptyString
  | S n' => String "0" (zeros n')
  end.

(** Leading zeros removed; a string of zeros only is ["0"]. *)
Fixpoint strip_zeros (s : string) : string :=
  match s with
  | EmptyString => "0"
  | String c r => if Ascii.eqb c "0" then strip_zeros r else s
  end.

(** The text before the first point, and the text after it when there is
    one. *)
Fixpoint split_dot (s : string) : string * option string :=
  match s with
  | EmptyString => (EmptyString, None)
  | String c r =>
      if Ascii.eqb c "."
      then (EmptyString, Some r)
      else let (a, b) := split_dot r in (String c a, b)
  end.

(** The coefficient has digits only and no leading zero (["0"] itself
    apart): the form every decimal built from text or from a number has. *)
Definition Decimal_wf (d : Decimal) : Prop :=
  all_digits (dec_int d) = true /\ strip_zeros (dec_int d) = dec_int d.

(** [str(d)]: sign, integer part, and the fraction after a point when the
    scale is positive. *)
Definition str_Decimal (d : Decimal) : string :=
  let n := String.length (dec_int d) in
  let s := dec_scale d in
  let body :=
    if Nat.eqb s 0 then dec_int d
    else if Nat.ltb s n
         then take (n - s) (dec_int d) ++ "." ++ drop (n - s) (dec_int d)
         else "0." ++ zeros (s - n) ++ dec_int d in
  (if dec_sign d then "-" else "") ++ body.

(** [Decimal(s)] on text: an optional sign, digits, and optionally a point
    and more digits; at least one digit in all.  [None] for any other
    text. *)
Definition Decimal_of_digits (sign : bool) (s : string) : option Decimal :=
  let (ip, fp) := split_dot s in
  let fr := match fp with Some f => f | None => EmptyString end in
  if all_digits ip && all_digits fr
     && negb (Nat.eqb (String.length (ip ++ fr)) 0)
  then Some (mkDecimal sign (strip_zeros (ip ++ fr)) (String.length fr))
  else None.

Definition Decimal_of_str (s : string) : option Decimal :=
  match s with
  | EmptyString => None
  | String c r =>
      if Ascii.eqb c "-" then Decimal_of_digits true r
      else if Ascii.eqb c "+" then Decimal_of_digits false r
      else Decimal_of_digits false s
  end.

(** [Decimal(n)] on an integer. *)
Definition Decimal_of_int (n : Z) : Decimal :=
  mkDecimal (n <? 0) (str_int (Z.abs n)) 0.

(** The numeric value, as a fraction with a power of ten below. *)
Definition digit_value (c : ascii) : Z := Z.of_N (N_of_ascii c) - 48.

Fixpoint digits_value (acc : Z) (s : string) : Z :=
  match s with
  | EmptyString => acc
  | String c r => digits_value (10 * acc + digit_value c) r
  end.

Definition Decimal_numerator (d : Decimal) : Z :=
  let v := digits_value 0 (dec_int d) in
  if dec_sign d then - v else v.

(** [a == b] on decimals: equal values, whatever the number of digits
    they are written with. *)
Definition Decimal_eq (a b : Decimal) : Prop :=
  Decimal_numerator a * 10 ^ Z.of_nat (dec_scale b)
  = Decimal_numerator b * 10 ^ Z.of_nat (dec_scale a).

(** A Python float, as [request.get_json()] gives for a JSON number
    written with a fraction or an exponent: a finite binary floating-point
    number, held as its sign, mantissa and exponent of two; its value is the
    mantissa times two to the exponent.  The digits the number was written
    with are not kept: the numbers 12.50 and 12.5 of a body are the same
    float, 25 times two to the -1.  The values that are not finite are not
    covered. *)
Record PyFloat : Type := mkFloat {
  float_sign : bool;         (* true: negative *)
  float_mantissa : N;
  float_exponent : Z
}.

(** A mantissa halved while it is even and the power of two below it is
    positive. *)
Fixpoint halve (m : positive) (k : nat) : positive * nat :=
  match m, k with
  | xO p, S k' => halve p k'
  | _, _ => (m, k)
  end.

(** [abs(f).as_integer_ratio()]: the numerator of the fraction in lowest
    terms and the power of two that its denominator is. *)
Definition float_ratio (f : PyFloat) : N * nat :=
  match float_mantissa f with
  | N0 => (0%N, O)
  | Npos m =>
      if 0 <=? float_exponent f
      then ((Npos m * 2 ^ Z.to_N (float_exponent f))%N, O)
      else let (n, k) := halve m (Z.to_nat (- float_exponent f)) in
           (Npos n, k)
  end.

(** Modelled from the spec: [Decimal(f)] on a float, the way a "numeric"
    price is accepted.  The conversion is exact: the float [n / 2^k] is
    the decimal [n * 5^k] with [k] digits after the point. *)
Definition Decimal_of_float (f : PyFloat) : Decimal :=
  let (n, k) := float_ratio f in
  mkDecimal (float_sign f) (str_int (Z.of_N (n * 5 ^ N.of_nat k))) k.

(* ===================================================================== *)
(** ** The [Category] enumeration *)
(* ===================================================================== *)

(** [Category] is declared in [service/models.py], which is not part of the
    sources: the handlers only use it through attribute lookup by name and
    through [member.name].  It is taken as an interface: a type with
    decidable equality, the list of its members in declaration order
    ([Category.__members__.values()]), the name of each member, and the
    names of the attributes that the class body and the Python version in
    use give the class object besides its members and besides the attributes
    of every [Enum] class (listed in [Enum_class_attributes] below). *)
Class Enum (Category : Type) : Type := {
  Category_eq_dec : forall a b : Category, {a = b} + {a <> b};
  Category_members : list Category;
  Category_name : Category -> string;
  Category_has_attribute : string -> bool
}.

(** What Python's [Enum] guarantees of such a class: every value of the
    type is one of the members, and no two members share a name. *)
Class EnumLaws (Category : Type) `{Enum Category} : Prop := {
  members_complete : forall c : Category, In c Category_members;
  names_unique :
    forall a b : Category, Category_name a = Category_name b -> a = b
}.

(** The members the specification and the tests name ([Category.UNKNOWN]
    in [list_all_products], [Category.CLOTHS] in the tests), as an instance
    to run the model on. *)
Inductive NamedCategory : Type := UNKNOWN | CLOTHS.

Definition NamedCategory_eq_dec (a b : NamedCategory) : {a = b} + {a <> b}.
Proof. decide equality. Defined.

#[export] Instance NamedCategory_Enum : Enum NamedCategory := {
  Category_eq_dec := NamedCategory_eq_dec;
  Category_members := [UNKNOWN; CLOTHS];
  Category_name := fun c =>
    match c with UNKNOWN => "UNKNOWN" | CLOTHS => "CLOTHS" end;
  Category_has_attribute := fun _ => false
}.

(** Attributes that every class built with Python's [Enum] has besides its
    members: [__members__], the documented mapping of names to members, the
    tables and methods that the enumeration machinery keeps on the class,
    and the attributes of every class object.  What else a given class has
    is [Category_has_attribute]. *)
Definition Enum_class_attributes : list string :=
  ["__members__"; "_member_map_"; "_member_names_"; "_value2member_map_";
   "_member_type_"; "__contains__"; "__getitem__"; "__iter__"; "__len__";
   "__reversed__"; "__name__"; "__qualname__"; "__module__"; "__doc__";
   "__class__"; "__dict__"; "__mro__"; "__bases__"; "__base__"; "mro";
   "__subclasses__"; "__init__"; "__new__"; "__call__"; "__repr__";
   "__str__"; "__hash__"; "__eq__"; "__ne__"; "__dir__"; "__format__";
   "__reduce_ex__"; "__getattribute__"; "__setattr__"; "__delattr__";
   "__init_subclass__"; "__subclasshook__"; "__sizeof__"].

(* ===================================================================== *)
(** ** JSON values *)
(* ===================================================================== *)

(** What [request.get_json()] returns and [jsonify] takes: Python's [None],
    booleans, integers, floats, strings, lists and dicts. *)
#[warnings="-register-all"]
Inductive json : Type :=
  | JNull
  | JBool (b : bool)
  | JInt (n : Z)
  | JFloat (f : PyFloat)
  | JString (s : string)
  | JArray (l : list json)
  | JObject (m : list (string * json)).

(** [m[k]] on a dict held as an association list: the first binding of the
    key. *)
Fixpoint dict_get (k : string) (m : list (string * json)) : option json :=
  match m with
  | [] => None
  | (k', v) :: r => if String.eqb k k' then Some v else dict_get k r
  end.

(** The value under a key of a JSON object. *)
Definition json_field (k : string) (value : json) : option json :=
  match value with
  | JObject m => dict_get k m
  | _ => None
  end.

(* ===================================================================== *)
(** ** Exceptions *)
(* ===================================================================== *)

(** The exceptions the handlers meet: the model's [DataValidationError],
    the [HTTPException] that [abort] raises, and any other error, which no
    handler catches. *)
Inductive exn : Type :=
  | DataValidationError (message : string)
  | HTTPException (code : Z) (description : string)
  | UnexpectedError (what : string).

Inductive outcome (A : Type) : Type :=
  | Ok (a : A)
  | Raise (e : exn).

Arguments Ok {A} a.
Arguments Raise {A} e.

Definition obind {A B : Type} (x : outcome A) (k : A -> outcome B)
  : outcome B :=
  match x with
  | Ok a => k a
  | Raise e => Raise e
  end.

Declare Scope outcome_scope.
Delimit Scope outcome_scope with outcome.
Notation "x <-- e ;; k" := (obind e (fun x => k))
  (at level 61, e at next level, right associativity) : outcome_scope.

Definition is_validation_error {A : Type} (x : outcome A) : Prop :=
  exists message, x = Raise (DataValidationError message).

Section Service.

Context {Category : Type} `{Enum Category}.

(* ===================================================================== *)
(** ** The [Product] model *)
(* ===================================================================== *)

(** The columns of a product.  [id] is [None] until the row is
    persisted. *)
Record Product : Type := mkProduct {
  id : option Z;
  name : string;
  description : string;
  price : Decimal;
  available : bool;
  category : Category
}.

(** An instance is either just constructed ([Product()], no column set) or
    holds a value for every column. *)
Definition Instance : Type := option Product.

Definition Product_new : Instance := None.

Definition Instance_id (self : Instance) : option Z :=
  match self with
  | Some p => id p
  | None => None
  end.

(** The member of that name, when there is one: the total lookup from
    names to members. *)
Definition Category_of_name (value : string) : option Category :=
  find (fun c => String.eqb (Category_name c) value) Category_members.

(** Modelled from the spec: [Product.serialize] is in [service/models.py],
    which is not part of the sources.  "produces {id, name, description,
    price (as string), available (bool), category (enum name string)}". *)
Definition serialize (self : Product) : json :=
  JObject
    [ ("id", match id self with Some n => JInt n | None => JNull end);
      ("name", JString (name self));
      ("description", JString (description self));
      ("price", JString (str_Decimal (price self)));
      ("available", JBool (available self));
      ("category", JString (Category_name (category self))) ].

(** Reading one key of the payload: a missing key is a validation
    failure. *)
Definition get_key (key : string) (m : list (string * json))
  : outcome json :=
  match dict_get key m with
  | Some v => Ok v
  | None => Raise (DataValidationError ("Invalid product: missing " ++ key))
  end.

Definition as_string (key : string) (v : json) : outcome string :=
  match v with
  | JString s => Ok s
  | _ => Raise (DataValidationError ("Invalid type for string [" ++ key ++ "]"))
  end.

(** "accepted as numeric or numeric-string on input". *)
Definition as_decimal (v : json) : outcome Decimal :=
  match v with
  | JInt n => Ok (Decimal_of_int n)
  | JFloat f => Ok (Decimal_of_float f)
  | JString s =>
      match Decimal_of_str s with
      | Some d => Ok d
      | None => Raise (DataValidationError "Invalid value for decimal [price]")
      end
  | _ => Raise (DataValidationError "Invalid type for decimal [price]")
  end.

(** "on input must deserialize from an actual boolean type". *)
Definition as_bool (v : json) : outcome bool :=
  match v with
  | JBool b => Ok b
  | _ => Raise (DataValidationError "Invalid type for boolean [available]")
  end.

Definition as_category (v : json) : outcome Category :=
  match v with
  | JString s =>
      match Category_of_name s with
      | Some c => Ok c
      | None => Raise (DataValidationError ("Invalid attribute: " ++ s))
      end
  | _ => Raise (DataValidationError "Invalid attribute")
  end.

(** Modelled from the spec: [Product.deserialize] is in
    [service/models.py], which is not part of the sources.  "fails with a
    validation error when: input is not a mapping (e.g. empty string), a
    required key is missing ..., available is present but not
    boolean-typed, or category does not match a known enumeration member.
    On success, mutates the instance's fields in place and returns it";
    and, of the columns, "every field except id must be present and of the
    correct type on create/update or the operation fails validation".  The
    instance keeps its [id]: the payload's ["id"] is not read. *)
Definition deserialize (self : Instance) (data : json) : outcome Product :=
  match data with
  | JObject m =>
      (v_name <-- get_key "name" m ;;
       the_name <-- as_string "name" v_name ;;
       v_description <-- get_key "description" m ;;
       the_description <-- as_string "description" v_description ;;
       v_price <-- get_key "price" m ;;
       the_price <-- as_decimal v_price ;;
       v_available <-- get_key "available" m ;;
       the_available <-- as_bool v_available ;;
       v_category <-- get_key "category" m ;;
       the_category <-- as_category v_category ;;
       Ok (mkProduct (Instance_id self) the_name the_description the_price
             the_available the_category))%outcome
  | _ =>
      Raise (DataValidationError
               "Invalid product: body of request contained bad or no data")
  end.

(* ===================================================================== *)
(** ** The persistence store and the data access methods *)
(* ===================================================================== *)

(** The [product] table: its rows in insertion order and the next value of
    the [id] sequence. *)
Record Store : Type := mkStore {
  rows : list Product;
  next_id : Z
}.

Definition has_id (n : Z) (p : Product) : bool :=
  match id p with
  | Some m => Z.eqb m n
  | None => false
  end.

Definition same_row (self p : Product) : bool :=
  match id self with
  | Some n => has_id n p
  | None => false
  end.

(** Every row has an id, below the next value of the sequence, and no two
    rows share one: what a table with a serial primary key holds. *)
Fixpoint rows_ok (bound : Z) (l : list Product) : Prop :=
  match l with
  | [] => True
  | p :: r =>
      (exists n, id p = Some n /\ n < bound
                 /\ forallb (fun q => negb (has_id n q)) r = true)
      /\ rows_ok bound r
  end.

Definition Store_ok (db : Store) : Prop := rows_ok (next_id db) (rows db).

(** Handlers run in the store: a computation takes the store and gives an
    outcome and the store after it.  An exception keeps the store it was
    raised in. *)
Definition M (A : Type) : Type := Store -> outcome A * Store.

Definition ret {A : Type} (a : A) : M A := fun db => (Ok a, db).

Definition raise {A : Type} (e : exn) : M A := fun db => (Raise e, db).

Definition bind {A B : Type} (x : M A) (k : A -> M B) : M B :=
  fun db =>
    match x db with
    | (Ok a, db') => k a db'
    | (Raise e, db') => (Raise e, db')
    end.

Definition lift {A : Type} (x : outcome A) : M A := fun db => (x, db).

Notation "x <- e ;; k" := (bind e (fun x => k))
  (at level 61, e at next level, right associativity).
Notation "e ;;; k" := (bind e (fun _ => k))
  (at level 61, right associativity).

(** [abort(code, description)]; [abort(code)] leaves the description
    empty. *)
Definition abort {A : Type} (code : Z) (description : string) : M A :=
  raise (HTTPException code description).

(** Modelled from the spec: the data access methods are in
    [service/models.py], which is not part of the sources.
    "create(instance): assigns a fresh id (forcing id to absent/null before
    insert to avoid caller-supplied ids), persists a new row, commits." *)
Definition create (self : Product) : M Product :=
  fun db =>
    let p := mkProduct (Some (next_id db)) (name self) (description self)
               (price self) (available self) (category self) in
    (Ok p, mkStore (rows db ++ [p]) (next_id db + 1)).

(** Modelled from the spec: "update(instance): fails with a validation
    error if id is null ...; otherwise persists changes to the existing
    row, commits." *)
Definition update (self : Product) : M unit :=
  fun db =>
    match id self with
    | None =>
        (Raise (DataValidationError "Update called with empty ID field"), db)
    | Some _ =>
        (Ok tt,
         mkStore (map (fun p => if same_row self p then self else p) (rows db))
                 (next_id db))
    end.

(** Modelled from the spec: "delete(instance): removes the row with
    matching id, commits.  No error if already absent". *)
Definition delete (self : Product) : M unit :=
  fun db =>
    (Ok tt,
     mkStore (filter (fun p => negb (same_row self p)) (rows db))
             (next_id db)).

(** Modelled from the spec: "all() -> sequence of Product: full table
    scan". *)
Definition Product_all : M (list Product) :=
  fun db => (Ok (rows db), db).

(** Modelled from the spec: "find(id) -> Product or absent: primary-key
    lookup". *)
Definition Product_find (product_id : Z) : M (option Product) :=
  fun db => (Ok (find (has_id product_id) (rows db)), db).

(** Modelled from the spec: "find_by_name(value): case-sensitive exact
    match". *)
Definition find_by_name (value : string) : M (list Product) :=
  fun db => (Ok (filter (fun p => String.eqb (name p) value) (rows db)), db).

(** Modelled from the spec: "find_by_availability(value): exact match on
    boolean". *)
Definition find_by_availability (value : bool) : M (list Product) :=
  fun db => (Ok (filter (fun p => Bool.eqb (available p) value) (rows db)), db).

(** A Python object that attribute lookup on the [Category] class can
    give: a member, or another attribute of the class. *)
Inductive PyObject : Type :=
  | Member (c : Category)
  | ClassAttribute (attribute : string).

(** Modelled from the spec: "find_by_category(value): exact match on enum
    value".  An object that is not a member of the enumeration is outside
    that contract: the query fails with an error that is none of the
    handlers' own ("Unhandled/unexpected errors ... propagate as a generic
    500-class failure"). *)
Definition find_by_category (value : PyObject) : M (list Product) :=
  match value with
  | Member c =>
      fun db =>
        (Ok (filter (fun p => if Category_eq_dec (category p) c
                              then true else false) (rows db)), db)
  | ClassAttribute attribute =>
      raise (UnexpectedError ("not a Category: " ++ attribute))
  end.

(* ===================================================================== *)
(** ** Requests and responses *)
(* ===================================================================== *)

(** [request.args] is a werkzeug [MultiDict] built from the pairs of the
    query string, in order: a dict from each key to the list of its values.
    [len] counts the keys, and [items()] gives each key once, with the
    first of its values. *)
Definition MultiDict : Type := list (string * string).

Fixpoint MultiDict_keys (d : MultiDict) : list string :=
  match d with
  | [] => []
  | (k, _) :: r =>
      k :: filter (fun k' => negb (String.eqb k' k)) (MultiDict_keys r)
  end.

Fixpoint MultiDict_first (k : string) (d : MultiDict) : string :=
  match d with
  | [] => EmptyString
  | (k', v) :: r => if String.eqb k k' then v else MultiDict_first k r
  end.

Definition MultiDict_len (d : MultiDict) : Z :=
  Z.of_nat (List.length (MultiDict_keys d)).

Definition MultiDict_items (d : MultiDict) : list (string * string) :=
  map (fun k => (k, MultiDict_first k d)) (MultiDict_keys d).

(** [request.headers]: names are matched whatever their case. *)
Fixpoint headers_get (key : string) (h : list (string * string))
  : option string :=
  match h with
  | [] => None
  | (k, v) :: r =>
      if equal_ignoring_case key k then Some v else headers_get key r
  end.

(** The part of Flask's [request] the handlers read: the headers, the
    query parameters, and the body as [get_json] parses it ([None] when the
    body is not JSON text). *)
Record Request : Type := mkRequest {
  headers : list (string * string);
  args : MultiDict;
  body_json : option json
}.

Inductive Body : Type :=
  | BodyText (text : string)
  | BodyJson (value : json)
  | BodyError (message : string).

Record Response : Type := mkResponse {
  status_code : Z;
  data : Body;
  response_headers : list (string * string)
}.

(** What a view function returns: body, status and, for some, headers. *)
Definition View : Type := M (Body * Z * list (string * string)).

Definition jsonify (value : json) : Body := BodyJson value.

(** [request.get_json()]: a body that is not JSON text is a 400 of the
    framework. *)
Definition get_json (request : Request) : M json :=
  match body_json request with
  | Some value => ret value
  | None => abort status.HTTP_400_BAD_REQUEST "Failed to decode JSON object"
  end.

(** [url_for("get_products", product_id=..., _external=True)], for the
    server name of the test client. *)
Definition products_path : string := "/products/".

Definition server_url : string := "http://localhost".

Definition url_for_get_products (product_id : Z) : string :=
  server_url ++ products_path ++ str_int product_id.

(* ===================================================================== *)
(** ** The handlers of [service/routes.py] *)
(* ===================================================================== *)

(** [healthcheck]. *)
Definition healthcheck : View :=
  ret (jsonify (JObject [("status", JInt 200); ("message", JString "OK")]),
       status.HTTP_200_OK, []).

(** [check_content_type]. *)
Definition check_content_type (request : Request) (content_type : string)
  : M unit :=
  match headers_get "Content-Type" (headers request) with
  | None =>
      abort status.HTTP_415_UNSUPPORTED_MEDIA_TYPE
        ("Content-Type must be " ++ content_type)
  | Some given =>
      if String.eqb given content_type then ret tt
      else abort status.HTTP_415_UNSUPPORTED_MEDIA_TYPE
             ("Content-Type must be " ++ content_type)
  end.

(** [create_products]: POST /products. *)
Definition create_products (request : Request) : View :=
  check_content_type request "application/json" ;;;
  data <- get_json request ;;
  product <- lift (deserialize Product_new data) ;;
  product <- create product ;;
  let message := serialize product in
  let location_url :=
    match id product with
    | Some n => url_for_get_products n
    | None => EmptyString
    end in
  ret (jsonify message, status.HTTP_201_CREATED,
       [("Location", location_url)]).

(** [getattr(Category, value)]: attribute lookup on the class.  It answers
    for a member name with the member, for another attribute of the class
    with that attribute, and raises [AttributeError] ([None] here) when the
    class has no attribute of that name. *)
Definition getattr_Category (value : string) : option PyObject :=
  match Category_of_name value with
  | Some c => Some (Member c)
  | None =>
      if existsb (String.eqb value) Enum_class_attributes
         || Category_has_attribute value
      then Some (ClassAttribute value)
      else None
  end.

(** The parameter and value that [list_all_products] works with: the one
    item of [request.args] when it has exactly one key (the key in lower
    case), two empty strings otherwise. *)
Definition query_param (request : Request) : string * string :=
  if Z.eqb (MultiDict_len (args request)) 1
  then match MultiDict_items (args request) with
       | (param, value) :: _ => (lower param, value)
       | [] => (EmptyString, EmptyString)
       end
  else (EmptyString, EmptyString).

(** [list_all_products]: GET /products. *)
Definition list_all_products (request : Request) : View :=
  if Z.ltb 1 (MultiDict_len (args request))
  then abort status.HTTP_400_BAD_REQUEST ""
  else
    let (param, value) := query_param request in
    if negb (existsb (String.eqb param) [""; "name"; "category"; "available"])
    then abort status.HTTP_400_BAD_REQUEST ""
    else
      products <-
        (if String.eqb param "name" then find_by_name value
         else if String.eqb param "category" then
           match getattr_Category value with
           | Some category => find_by_category category
           | None => abort status.HTTP_400_BAD_REQUEST ""
           end
         else if String.eqb param "available" then
           let available := String.eqb (lower value) "true" in
           find_by_availability available
         else Product_all) ;;
      let serialized_products := map serialize products in
      ret (jsonify (JArray serialized_products), status.HTTP_200_OK, []).

(** [get_products]: GET /products/<product_id>.  The route gives the path
    segment as text and [Product.find] reads it as the integer primary key;
    the handlers here start from that integer. *)
Definition get_products (product_id : Z) : View :=
  product <- Product_find product_id ;;
  match product with
  | None => abort status.HTTP_404_NOT_FOUND ""
  | Some product =>
      ret (jsonify (serialize product), status.HTTP_200_OK, [])
  end.

(** [update_products]: PUT /products/<product_id>. *)
Definition update_products (request : Request) (product_id : Z) : View :=
  check_content_type request "application/json" ;;;
  data <- get_json request ;;
  product <- Product_find product_id ;;
  match product with
  | None => abort status.HTTP_404_NOT_FOUND ""
  | Some product =>
      product <- lift (deserialize (Some product) data) ;;
      update product ;;;
      let message := serialize product in
      ret (jsonify message, status.HTTP_200_OK, [])
  end.

(** [delete_products]: DELETE /products/<product_id>. *)
Definition delete_products (request : Request) (product_id : Z) : View :=
  product <- Product_find product_id ;;
  match product with
  | None => abort status.HTTP_404_NOT_FOUND ""
  | Some product =>
      delete product ;;;
      ret (BodyText "", status.HTTP_204_NO_CONTENT, [])
  end.

(** What Flask answers for a view: the view's triple as a response; for an
    [abort] the response of that status; for a [DataValidationError] a 400
    (the error handlers of [service/common], "Validation error ...
    surfaced as 400 Bad Request"); for any other error a 500. *)
Definition respond (view : View) (db : Store) : Response * Store :=
  match view db with
  | (Ok (body, code, hs), db') => (mkResponse code body hs, db')
  | (Raise (HTTPException code description), db') =>
      (mkResponse code (BodyError description) [], db')
  | (Raise (DataValidationError message), db') =>
      (mkResponse status.HTTP_400_BAD_REQUEST (BodyError message) [], db')
  | (Raise (UnexpectedError what), db') =>
      (mkResponse status.HTTP_500_INTERNAL_SERVER_ERROR (BodyError what) [],
       db')
  end.

(** The answer to a request whose Content-Type is not accepted. *)
Definition unsupported_media_type : Response :=
  mkResponse status.HTTP_415_UNSUPPORTED_MEDIA_TYPE
    (BodyError "Content-Type must be application/json") [].

(** The requests of the API. *)
Definition POST_products (request : Request) := respond (create_products request).
Definition GET_products (request : Request) := respond (list_all_products request).
Definition GET_product (product_id : Z) := respond (get_products product_id).
Definition PUT_product (request : Request) (product_id : Z) :=
  respond (update_products request product_id).
Definition DELETE_product (request : Request) (product_id : Z) :=
  respond (delete_products request product_id).

(** GET on a URL, as the test client follows a [Location]: the server part
    is dropped and the rest of the path after [/products/] is read as the
    id.  [None] for a URL that is not of that form. *)
Definition GET_url (url : string) (db : Store) : option (Response * Store) :=
  let path :=
    match strip_prefix server_url url with
    | Some path => path
    | None => url
    end in
  match strip_prefix products_path path with
  | Some segment =>
      match int_of_str segment with
      | Some product_id => Some (GET_product product_id db)
      | None => None
      end
  | None => None
  end.

(* ===================================================================== *)
(** ** The failure conditions the specification lists for [deserialize] *)
(* ===================================================================== *)

Definition required_keys : list string :=
  ["name"; "description"; "price"; "available"; "category"].

(** The input is not a mapping. *)
Definition not_a_mapping (data : json) : bool :=
  match data with
  | JObject _ => false
  | _ => true
  end.

(** A required key is missing. *)
Definition missing_required_key (data : json) : bool :=
  match data with
  | JObject m =>
      existsb (fun k => match dict_get k m with
                        | None => true
                        | Some _ => false
                        end) required_keys
  | _ => false
  end.

(** The value under ["available"] is present but not a boolean. *)
Definition available_not_boolean (data : json) : bool :=
  match data with
  | JObject m =>
      match dict_get "available" m with
      | Some (JBool _) => false
      | Some _ => true
      | None => false
      end
  | _ => false
  end.

(** The value under ["category"] is present but not the name of a
    member. *)
Definition category_not_member (data : json) : bool :=
  match data with
  | JObject m =>
      match dict_get "category" m with
      | Some (JString s) =>
          match Category_of_name s with
          | Some _ => false
          | None => true
          end
      | Some _ => true
      | None => false
      end
  | _ => false
  end.

Definition listed_failure (data : json) : bool :=
  not_a_mapping data || missing_required_key data
  || available_not_boolean data || category_not_member data.

End Service.

(* ===================================================================== *)
(** ** Sample data *)
(* ===================================================================== *)

(** The product of the tests: a Fedora, "A red hat", 12.50, available, in
    the cloths category. *)
Definition price_12_50 : Decimal := mkDecimal false "1250" 2.

Definition fedora : @Product NamedCategory :=
  mkProduct None "Fedora" "A red hat" price_12_50 true CLOTHS.

(** The Fedora as the tests post it: [serialize] gives the price as
    text. *)
Definition fedora_payload : json :=
  JObject [ ("name", JString "Fedora");
            ("description", JString "A red hat");
            ("price", JString "12.50");
            ("available", JBool true);
            ("category", JString "CLOTHS") ].

(** The float that the JSON number 12.50 (or 12.5) is. *)
Definition float_12_5 : PyFloat := mkFloat false 25 (-1).

(** The Fedora with its price as the JSON number 12.50. *)
Definition fedora_number_payload : json :=
  JObject [ ("name", JString "Fedora");
            ("description", JString "A red hat");
            ("price", JFloat float_12_5);
            ("available", JBool true);
            ("category", JString "CLOTHS") ].

(** The same payload with a null price. *)
Definition null_price_payload : json :=
  JObject [ ("name", JString "Fedora");
            ("description", JString "A red hat");
            ("price", JNull);
            ("available", JBool true);
            ("category", JString "CLOTHS") ].

(** The same payload with ["available"] as the string ["true"]. *)
Definition string_available_payload : json :=
  JObject [ ("name", JString "Fedora");
            ("description", JString "A red hat");
            ("price", JString "12.50");
            ("available", JString "true");
            ("category", JString "CLOTHS") ].

Definition empty_store : @Store NamedCategory := mkStore [] 1.

(** A store that holds the Fedora under id 1. *)
Definition fedora_store : @Store NamedCategory :=
  mkStore [mkProduct (Some 1) "Fedora" "A red hat" price_12_50 true CLOTHS] 2.

Definition json_headers : list (string * string) :=
  [("Content-Type", "application/json")].

Definition charset_headers : list (string * string) :=
  [("Content-Type", "application/json; charset=utf-8")].


(** The requests of the tests. *)
Definition post_fedora : Request :=
  mkRequest json_headers [] (Some fedora_payload).

Definition post_fedora_number : Request :=
  mkRequest json_headers [] (Some fedora_number_payload).

Definition post_without_content_type : Request :=
  mkRequest [] [] (Some fedora_payload).

Definition post_with_charset : Request :=
  mkRequest charset_headers [] (Some fedora_payload).

Definition post_string_available : Request :=
  mkRequest json_headers [] (Some string_available_payload).

Definition bare_request : Request := mkRequest [] [] None.

(** Content-Type ["application/json"] with a body that is not JSON
    text. *)
Definition not_json_request : Request := mkRequest json_headers [] None.

Definition query (parameters : MultiDict) : Request :=
  mkRequest [] parameters None.


(* ===================================================================== *)
(** ** The test client and the helpers of [tests/test_routes.py] *)
(* ===================================================================== *)

(** [str(b)] on a Python boolean. *)
Definition str_bool (b : bool) : string := if b then "True" else "False".

(** [self.client.post(url, json=payload)] and [self.client.put(url,
    json=payload)]: the body is the JSON text of the payload, sent with
    Content-Type ["application/json"]. *)
Definition json_request (payload : json) : Request :=
  mkRequest json_headers [] (Some payload).

(** [response.get_json()]. *)
Definition response_json (response : Response) : option json :=
  match data response with
  | BodyJson value => Some value
  | _ => None
  end.

Section TestClient.

Context {Category : Type} `{Enum Category}.

Local Abbreviation Product := (@Product Category).
Local Abbreviation Store := (@Store Category).

(** [product.id = n]. *)
Definition set_id (n : option Z) (p : Product) : Product :=
  mkProduct n (name p) (description p) (price p) (available p) (category p).

(** [product.description = text]. *)
Definition set_description (text : string) (p : Product) : Product :=
  mkProduct (id p) (name p) text (price p) (available p) (category p).

(** [response.get_json()["id"]], as a Python value: an integer or
    [None]. *)
Definition response_id (response : Response) : option Z :=
  match response_json response with
  | Some value =>
      match json_field "id" value with
      | Some (JInt n) => Some n
      | _ => None
      end
  | None => None
  end.

(** [_create_products] of [tests/test_routes.py].  The products that
    [ProductFactory()] draws are the argument, one for each turn of the
    loop; each is posted in serialized form, the status is asserted to be
    201 ([None] when the assertion fails), and the product is returned with
    the id of the response. *)
Fixpoint _create_products (test_products : list Product) (db : Store)
  : option (list Product * Store) :=
  match test_products with
  | [] => Some ([], db)
  | test_product :: rest =>
      let (response, db') :=
        POST_products (json_request (serialize test_product)) db in
      if Z.eqb (status_code response) status.HTTP_201_CREATED
      then
        let test_product := set_id (response_id response) test_product in
        match _create_products rest db' with
        | Some (products, db'') => Some (test_product :: products, db'')
        | None => None
        end
      else None
  end.

(** [get_product_count] of [tests/test_routes.py]: the length of the list
    that GET /products returns, the status being asserted to be 200. *)
Definition get_product_count (db : Store) : option nat :=
  let (response, _) := GET_products (query []) db in
  if Z.eqb (status_code response) status.HTTP_200_OK
  then match response_json response with
       | Some (JArray l) => Some (List.length l)
       | _ => None
       end
  else None.

(** The products as the store numbers them, from a first id on. *)
Fixpoint number_from (n : Z) (ps : list Product) : list Product :=
  match ps with
  | [] => []
  | p :: r => set_id (Some n) p :: number_from (n + 1) r
  end.

End TestClient.

(** A second product, for the runs that need two. *)
Definition bowler : @Product NamedCategory :=
  mkProduct None "Bowler" "A round hat" (mkDecimal false "3000" 2) false UNKNOWN.
(* ===================================================================== *)
(** * Properties *)
(* ===================================================================== *)

(** ** Strings *)


(** Against a character that is not an upper-case letter, comparing after
    [lower] is comparing up to case. *)
Lemma lower_ascii_eqb (a b : ascii) :
  is_upper b = false ->
  Ascii.eqb (lower_ascii a) b = same_letter a b.
Proof.
  intros Hb. unfold lower_ascii, same_letter. rewrite Hb.
  rewrite andb_false_l, orb_false_r.
  destruct (is_upper a) eqn:Ha; simpl.
  - destruct (Ascii.eqb_spec a b) as [->|Hne]; [congruence|reflexivity].
  - now rewrite orb_false_r.
Qed.

Lemma lower_eqb (s t : string) :
  no_upper t = true ->
  String.eqb (lower s) t = equal_ignoring_case s t.
Proof.
  revert t. induction s as [|a s IH]; intros [|b t] Ht; simpl; try reflexivity.
  simpl in Ht. apply andb_true_iff in Ht. destruct Ht as [Hb Ht].
  apply negb_true_iff in Hb.
  rewrite (lower_ascii_eqb a b Hb), (IH t Ht). reflexivity.
Qed.

Lemma strip_prefix_app (p s : string) : strip_prefix p (p ++ s) = Some s.
Proof.
  induction p as [|a p IH]; simpl; [reflexivity|].
  now rewrite Ascii.eqb_refl.
Qed.

Lemma int_of_str_str_int (n : Z) : int_of_str (str_int n) = Some n.
Proof.
  unfold int_of_str, str_int.
  rewrite NilZero.isi.
  - simpl. now rewrite DecimalZ.of_to.
  - destruct n; simpl; intros [= E]; try discriminate.
    now apply DecimalPos.Unsigned.to_uint_nonnil in E.
  - destruct n; simpl; intros [= E].
    now apply DecimalPos.Unsigned.to_uint_nonnil in E.
Qed.

(** ** Decimals: text and back *)

Lemma take_drop (n : nat) (s : string) : take n s ++ drop n s = s.
Proof.
  revert s. induction n as [|n IH]; intros [|c r]; simpl; try reflexivity.
  now rewrite IH.
Qed.

Lemma length_drop (n : nat) (s : string) :
  String.length (drop n s) = (String.length s - n)%nat.
Proof.
  revert s. induction n as [|n IH]; intros [|c r]; simpl; try reflexivity.
  apply IH.
Qed.

Lemma length_app (s t : string) :
  String.length (s ++ t) = (String.length s + String.length t)%nat.
Proof. induction s as [|c s IH]; simpl; [reflexivity|now rewrite IH]. Qed.

Lemma length_zeros (n : nat) : String.length (zeros n) = n.
Proof. induction n as [|n IH]; simpl; [reflexivity|now rewrite IH]. Qed.

Lemma all_digits_app (s t : string) :
  all_digits (s ++ t) = all_digits s && all_digits t.
Proof.
  induction s as [|c s IH]; simpl; [reflexivity|].
  now rewrite IH, andb_assoc.
Qed.

Lemma all_digits_zeros (n : nat) : all_digits (zeros n) = true.
Proof. induction n as [|n IH]; simpl; [reflexivity|exact IH]. Qed.

Lemma all_digits_take (n : nat) (s : string) :
  all_digits s = true -> all_digits (take n s) = true.
Proof.
  revert s. induction n as [|n IH]; intros [|c r]; simpl; try reflexivity.
  intros Hd. apply andb_true_iff in Hd. destruct Hd as [Hc Hr].
  now rewrite Hc, (IH r Hr).
Qed.

Lemma all_digits_drop (n : nat) (s : string) :
  all_digits s = true -> all_digits (drop n s) = true.
Proof.
  revert s. induction n as [|n IH]; intros [|c r]; simpl; try easy.
  intros Hd. apply andb_true_iff in Hd. destruct Hd as [_ Hr]. now apply IH.
Qed.

Lemma is_digit_not_dot (c : ascii) : is_digit c = true -> Ascii.eqb c "." = false.
Proof.
  intros Hd. destruct (Ascii.eqb_spec c "."%char) as [->|]; [discriminate|reflexivity].
Qed.


Lemma split_dot_digits (s : string) :
  all_digits s = true -> split_dot s = (s, None).
Proof.
  induction s as [|c s IH]; simpl; [reflexivity|].
  intros Hd. apply andb_true_iff in Hd. destruct Hd as [Hc Hs].
  now rewrite (is_digit_not_dot c Hc), (IH Hs).
Qed.

Lemma split_dot_app (a b : string) :
  all_digits a = true -> split_dot (a ++ "." ++ b) = (a, Some b).
Proof.
  induction a as [|c a IH]; simpl; [reflexivity|].
  intros Hd. apply andb_true_iff in Hd. destruct Hd as [Hc Ha].
  rewrite (is_digit_not_dot c Hc). simpl in IH. now rewrite (IH Ha).
Qed.

Lemma strip_zeros_zeros (n : nat) (s : string) :
  strip_zeros (zeros n ++ s) = strip_zeros s.
Proof. induction n as [|n IH]; simpl; [reflexivity|exact IH]. Qed.

Lemma app_empty_r (s : string) : s ++ "" = s.
Proof. induction s as [|c s IH]; simpl; [reflexivity|now rewrite IH]. Qed.

Lemma strip_zeros_fixed_nonempty (s : string) :
  strip_zeros s = s -> s <> EmptyString.
Proof. intros E ->. discriminate. Qed.

Lemma length_nonempty (s : string) :
  s <> EmptyString -> Nat.eqb (String.length s) 0 = false.
Proof. destruct s; [congruence|reflexivity]. Qed.

(** Reading the unsigned text of a well-formed decimal gives it back. *)
Lemma Decimal_of_digits_body (sg : bool) (ds : string) (sc : nat) :
  Decimal_wf (mkDecimal sg ds sc) ->
  Decimal_of_digits sg
    (if Nat.eqb sc 0 then ds
     else if Nat.ltb sc (String.length ds)
          then take (String.length ds - sc) ds ++ "." ++
               drop (String.length ds - sc) ds
          else "0." ++ zeros (sc - String.length ds) ++ ds)
  = Some (mkDecimal sg ds sc).
Proof.
  intros [Hd Hz]. simpl in Hd, Hz.
  pose proof (strip_zeros_fixed_nonempty ds Hz) as Hne.
  unfold Decimal_of_digits.
  destruct (Nat.eqb_spec sc 0) as [->|Hsc].
  - rewrite (split_dot_digits ds Hd), app_empty_r, Hd, Hz.
    simpl. now rewrite (length_nonempty ds Hne).
  - destruct (Nat.ltb_spec sc (String.length ds)) as [Hlt|Hge].
    + rewrite split_dot_app by now apply all_digits_take.
      rewrite take_drop, Hz.
      rewrite all_digits_take, all_digits_drop by assumption.
      rewrite length_drop, (length_nonempty ds Hne). simpl.
      do 2 f_equal. lia.
    + change ("0." ++ zeros (sc - String.length ds) ++ ds)
        with ("0" ++ "." ++ (zeros (sc - String.length ds) ++ ds)).
      rewrite split_dot_app by reflexivity.
      change ("0" ++ zeros (sc - String.length ds) ++ ds)
        with (zeros (S (sc - String.length ds)) ++ ds).
      rewrite strip_zeros_zeros, Hz.
      rewrite all_digits_app, all_digits_zeros, Hd.
      rewrite !length_app, !length_zeros. simpl.
      do 2 f_equal. lia.
Qed.

Lemma Decimal_of_str_unsigned (s : string) (d : Decimal) :
  Decimal_of_digits false s = Some d -> Decimal_of_str s = Some d.
Proof.
  destruct s as [|c r]; [discriminate|].
  unfold Decimal_of_str.
  destruct (Ascii.eqb_spec c "-"%char) as [->|_].
  - unfold Decimal_of_digits. simpl. destruct (split_dot r). discriminate.
  - destruct (Ascii.eqb_spec c "+"%char) as [->|_]; [|easy].
    unfold Decimal_of_digits. simpl. destruct (split_dot r). discriminate.
Qed.

(** [Decimal(str(d)) = d] for a well-formed decimal. *)
Lemma Decimal_of_str_str_Decimal (d : Decimal) :
  Decimal_wf d -> Decimal_of_str (str_Decimal d) = Some d.
Proof.
  destruct d as [sg ds sc]. intros Hwf.
  pose proof (Decimal_of_digits_body sg ds sc Hwf) as Hbody.
  unfold str_Decimal. simpl dec_sign. simpl dec_int. simpl dec_scale.
  cbv zeta. destruct sg.
  - change ("-" ++ ?x) with (String "-" x). exact Hbody.
  - apply Decimal_of_str_unsigned. exact Hbody.
Qed.


(** ** The sample enumeration *)

#[export] Instance NamedCategory_EnumLaws : EnumLaws NamedCategory.
Proof.
  split.
  - intros []; simpl; auto.
  - intros [] []; simpl; intros E; try reflexivity; discriminate.
Qed.

Section Properties.

Context {Category : Type} `{EnumLaws Category}.

Local Abbreviation Product := (@Product Category).
Local Abbreviation Instance := (@Instance Category).
Local Abbreviation Store := (@Store Category).

(** ** The enumeration: lookup by name *)

Lemma Category_of_name_name (c : Category) :
  Category_of_name (Category_name c) = Some c.
Proof.
  unfold Category_of_name.
  destruct (find (fun c' => String.eqb (Category_name c') (Category_name c))
              Category_members) as [c'|] eqn:Hf.
  - apply find_some in Hf. destruct Hf as [_ Hn].
    apply String.eqb_eq in Hn. f_equal. now apply names_unique.
  - pose proof (find_none _ _ Hf c (members_complete c)) as Hc.
    simpl in Hc. now rewrite String.eqb_refl in Hc.
Qed.


Lemma Category_of_name_some (value : string) (c : Category) :
  Category_of_name value = Some c -> Category_name c = value.
Proof.
  unfold Category_of_name. intros Hf.
  apply find_some in Hf. destruct Hf as [_ Hn]. now apply String.eqb_eq.
Qed.

(** ** [serialize] and [deserialize] *)

Lemma deserialize_serialize (self : Instance) (P : Product) :
  Decimal_wf (price P) ->
  deserialize self (serialize P)
  = Ok (mkProduct (Instance_id self) (name P) (description P) (price P)
          (available P) (category P)).
Proof.
  intros Hwf. unfold deserialize, serialize, get_key. simpl.
  rewrite (Decimal_of_str_str_Decimal (price P) Hwf). simpl.
  rewrite Category_of_name_name. reflexivity.
Qed.

(** C1. Round trip: for every product P whose price is a well-formed
    decimal, [deserialize] applied to any instance (a fresh one in
    particular) with the mapping [serialize P] succeeds, and the instance it
    returns has the name, description, availability and category of P and a
    price that is numerically equal to the price of P. *)
Theorem serialize_deserialize_round_trip (self : Instance) (P : Product) :
  Decimal_wf (price P) ->
  exists P' : Product,
    deserialize self (serialize P) = Ok P'
    /\ name P' = name P
    /\ description P' = description P
    /\ available P' = available P
    /\ category P' = category P
    /\ Decimal_eq (price P') (price P).
Proof.
  intros Hwf. eexists. split; [apply (deserialize_serialize self P Hwf)|].
  simpl. repeat split.
Qed.


(** [deserialize] either returns a product whose fields are those of the
    payload, which then shows none of the listed failures, or raises a
    validation error; it never raises anything else. *)
Lemma deserialize_cases (self : Instance) (data : json) :
  match deserialize self data with
  | Ok product =>
      listed_failure data = false
      /\ id product = Instance_id self
      /\ exists m,
           data = JObject m
           /\ dict_get "name" m = Some (JString (name product))
           /\ dict_get "description" m = Some (JString (description product))
           /\ (exists v, dict_get "price" m = Some v
                         /\ as_decimal v = Ok (price product))
           /\ dict_get "available" m = Some (JBool (available product))
           /\ (exists s, dict_get "category" m = Some (JString s)
                         /\ Category_of_name s = Some (category product))
  | Raise e => exists message, e = DataValidationError message
  end.
Proof.
  destruct data as [| b | n | d | s | l | m]; simpl; try (eexists; reflexivity).
  unfold listed_failure, missing_required_key, available_not_boolean,
    category_not_member, get_key. simpl.
  destruct (dict_get "name" m) as [[]|] eqn:Hname; simpl;
    try (eexists; reflexivity).
  destruct (dict_get "description" m) as [[]|] eqn:Hdesc; simpl;
    try (eexists; reflexivity).
  destruct (dict_get "price" m) as [v|] eqn:Hprice; simpl;
    [|eexists; reflexivity].
  destruct (as_decimal v) as [the_price|e] eqn:Hdec; simpl.
  2:{ destruct v; simpl in Hdec; try discriminate;
      try (injection Hdec as <-; eexists; reflexivity).
      destruct (Decimal_of_str s1); [discriminate|].
      injection Hdec as <-. eexists; reflexivity. }
  destruct (dict_get "available" m) as [[]|] eqn:Havail; simpl;
    try (eexists; reflexivity).
  destruct (dict_get "category" m) as [[]|] eqn:Hcat; simpl;
    try (eexists; reflexivity).
  destruct (Category_of_name s1) as [c|] eqn:Hc; simpl;
    [|eexists; reflexivity].
  split; [reflexivity|]. split; [reflexivity|].
  exists m. repeat split; try assumption.
  - exists v. split; assumption.
  - exists s1. split; assumption.
Qed.

(** C2 (amended). Each failure the specification lists for [deserialize]
    (the input is not a mapping; a required key is missing; ["available"] is
    present but not a boolean; ["category"] is not the name of a member)
    makes it fail with a validation error; the list is sufficient, not
    necessary.  When [deserialize] succeeds, none of them holds, the
    instance it returns keeps its id and has its name, description, price,
    availability and category set from the mapping. *)
Theorem deserialize_listed_failures (self : Instance) (data : json) :
  (listed_failure data = true -> is_validation_error (deserialize self data))
  /\ (forall product : Product,
        deserialize self data = Ok product ->
        listed_failure data = false
        /\ id product = Instance_id self
        /\ exists m,
             data = JObject m
             /\ dict_get "name" m = Some (JString (name product))
             /\ dict_get "description" m = Some (JString (description product))
             /\ (exists v, dict_get "price" m = Some v
                           /\ as_decimal v = Ok (price product))
             /\ dict_get "available" m = Some (JBool (available product))
             /\ (exists s, dict_get "category" m = Some (JString s)
                           /\ Category_of_name s = Some (category product))).
Proof.
  pose proof (deserialize_cases self data) as Hc.
  split.
  - intros Hl. destruct (deserialize self data) as [p|e].
    + destruct Hc as [Hf _]. congruence.
    + destruct Hc as [message ->]. now exists message.
  - intros product E. rewrite E in Hc. exact Hc.
Qed.

(** A failed [deserialize] is a validation error. *)
Lemma deserialize_raise (self : Instance) (data : json) (e : exn) :
  deserialize self data = Raise e -> exists message, e = DataValidationError message.
Proof.
  intros E. pose proof (deserialize_cases self data) as Hc.
  now rewrite E in Hc.
Qed.

(** ** [request.args] *)

Lemma MultiDict_keys_In (d : MultiDict) (k v : string) :
  In (k, v) d -> In k (MultiDict_keys d).
Proof.
  induction d as [|[k' v'] r IH]; simpl; [easy|].
  intros [E|Hin].
  - injection E as -> ->. now left.
  - destruct (String.eqb_spec k k') as [->|Hne]; [now left|].
    right. apply filter_In. split; [now apply IH|].
    apply negb_true_iff. now apply String.eqb_neq.
Qed.

Lemma two_members_length {A : Type} (l : list A) (x y : A) :
  In x l -> In y l -> x <> y -> (2 <= List.length l)%nat.
Proof.
  destruct l as [|a [|b l]]; simpl; intros Hx Hy Hne.
  - easy.
  - destruct Hx as [<-|[]], Hy as [<-|[]]. congruence.
  - lia.
Qed.

(** Parameters under two different keys make [len(request.args)] two or
    more. *)
Lemma MultiDict_len_two_keys (d : MultiDict) (k1 v1 k2 v2 : string) :
  In (k1, v1) d -> In (k2, v2) d -> k1 <> k2 -> 1 < MultiDict_len d.
Proof.
  intros H1 H2 Hne. unfold MultiDict_len.
  pose proof (two_members_length (MultiDict_keys d) k1 k2
                (MultiDict_keys_In d k1 v1 H1) (MultiDict_keys_In d k2 v2 H2) Hne).
  lia.
Qed.

Lemma query_param_single (hs : list (string * string)) (b : option json)
  (k v : string) :
  query_param (mkRequest hs [(k, v)] b) = (lower k, v).
Proof.
  unfold query_param, MultiDict_len, MultiDict_items. simpl.
  now rewrite String.eqb_refl.
Qed.

(** ** GET /products *)

(** More than one key: 400. *)
Lemma list_all_products_many (request : Request) (db : Store) :
  1 < MultiDict_len (args request) ->
  GET_products request db
  = (mkResponse status.HTTP_400_BAD_REQUEST (BodyError "") [], db).
Proof.
  intros Hlen. apply Z.ltb_lt in Hlen.
  unfold GET_products, respond, list_all_products. now rewrite Hlen.
Qed.

(** One parameter under a key that, in lower case, is none of the four
    words the handler knows: 400. *)
Lemma list_all_products_unknown (hs : list (string * string))
  (b : option json) (k v : string) (db : Store) :
  ~ In (lower k) [""; "name"; "category"; "available"] ->
  GET_products (mkRequest hs [(k, v)] b) db
  = (mkResponse status.HTTP_400_BAD_REQUEST (BodyError "") [], db).
Proof.
  intros Hnot.
  unfold GET_products, respond, list_all_products.
  rewrite query_param_single.
  change (Z.ltb 1 (MultiDict_len (args (mkRequest hs [(k, v)] b)))) with false.
  cbv iota.
  replace (existsb (String.eqb (lower k)) [""; "name"; "category"; "available"])
    with false; [reflexivity|].
  symmetry. apply not_true_is_false. intros Hex.
  apply existsb_exists in Hex. destruct Hex as [w [Hin Heq]].
  apply String.eqb_eq in Heq. subst w. contradiction.
Qed.

(** No parameter: every product. *)
Lemma list_all_products_all (hs : list (string * string)) (b : option json)
  (db : Store) :
  GET_products (mkRequest hs [] b) db
  = (mkResponse status.HTTP_200_OK
       (jsonify (JArray (map serialize (rows db)))) [], db).
Proof. reflexivity. Qed.

(** C3 (amended). For every GET /products request: if it carries query
    parameters under two different keys the status is 400; if it carries
    exactly one query parameter whose key, put in lower case, is not empty
    and is none of name, category and available, the status is 400; if it
    carries no query parameter the response is 200 with all the products,
    and the store is left as it was. *)
Theorem list_all_products_query_parameters (request : Request) (db : Store) :
  (forall k1 v1 k2 v2 : string,
      In (k1, v1) (args request) -> In (k2, v2) (args request) -> k1 <> k2 ->
      status_code (fst (GET_products request db))
      = status.HTTP_400_BAD_REQUEST)
  /\ (forall k v : string,
        args request = [(k, v)] ->
        lower k <> "" ->
        ~ In (lower k) ["name"; "category"; "available"] ->
        status_code (fst (GET_products request db))
        = status.HTTP_400_BAD_REQUEST)
  /\ (args request = [] ->
      GET_products request db
      = (mkResponse status.HTTP_200_OK
           (jsonify (JArray (map serialize (rows db)))) [], db)).
Proof.
  destruct request as [hs qs b]. simpl args.
  split; [|split].
  - intros k1 v1 k2 v2 H1 H2 Hne.
    rewrite list_all_products_many; [reflexivity|].
    simpl args. now apply (MultiDict_len_two_keys qs k1 v1 k2 v2).
  - intros k v -> Hempty Hnot.
    rewrite list_all_products_unknown; [reflexivity|].
    simpl. intros [E|Hin]; [now apply Hempty|now apply Hnot].
  - intros ->. apply list_all_products_all.
Qed.

(** One parameter under a key that is ["category"] in lower case: the
    response is decided by [getattr(Category, value)]. *)
Lemma list_all_products_category (hs : list (string * string))
  (b : option json) (value : string) (db : Store) :
  GET_products (mkRequest hs [("category", value)] b) db
  = match getattr_Category value with
    | Some (Member c) =>
        (mkResponse status.HTTP_200_OK
           (jsonify (JArray (map serialize
              (filter (fun p => if Category_eq_dec (category p) c
                                then true else false) (rows db))))) [], db)
    | Some (ClassAttribute attribute) =>
        (mkResponse status.HTTP_500_INTERNAL_SERVER_ERROR
           (BodyError ("not a Category: " ++ attribute)) [], db)
    | None => (mkResponse status.HTTP_400_BAD_REQUEST (BodyError "") [], db)
    end.
Proof.
  unfold GET_products, respond, list_all_products.
  rewrite query_param_single.
  change (lower "category") with "category".
  change (Z.ltb 1 (MultiDict_len (args (mkRequest hs [("category", value)] b))))
    with false.
  cbv iota. simpl existsb. cbv iota. simpl String.eqb. cbv iota.
  destruct (getattr_Category value) as [[c|attribute]|]; reflexivity.
Qed.

Lemma getattr_Category_member (c : Category) :
  getattr_Category (Category_name c) = Some (Member c).
Proof. unfold getattr_Category. now rewrite Category_of_name_name. Qed.

(** A member name: 200 with the products of that category, in the order of
    the table. *)
Lemma list_all_products_category_member (hs : list (string * string))
  (b : option json) (c : Category) (db : Store) :
  GET_products (mkRequest hs [("category", Category_name c)] b) db
  = (mkResponse status.HTTP_200_OK
       (jsonify (JArray (map serialize
          (filter (fun p => if Category_eq_dec (category p) c
                            then true else false) (rows db))))) [], db).
Proof.
  rewrite list_all_products_category, getattr_Category_member. reflexivity.
Qed.

(** A value that is no attribute of the class: 400. *)
Lemma list_all_products_category_no_attribute (hs : list (string * string))
  (b : option json) (value : string) (db : Store) :
  getattr_Category value = None ->
  GET_products (mkRequest hs [("category", value)] b) db
  = (mkResponse status.HTTP_400_BAD_REQUEST (BodyError "") [], db).
Proof. intros E. now rewrite list_all_products_category, E. Qed.

(** C4 (the handler at [category=__members__]). ["__members__"] is not the
    name of a member, and it is an attribute of the class: [getattr] does
    not raise, the handler does not abort, and the status is not 400. *)
Theorem list_all_products_category_class_attribute
  (hs : list (string * string)) (b : option json) (db : Store) :
  Category_of_name "__members__" = None ->
  getattr_Category "__members__" = Some (ClassAttribute "__members__")
  /\ status_code
       (fst (GET_products (mkRequest hs [("category", "__members__")] b) db))
     <> status.HTTP_400_BAD_REQUEST.
Proof.
  intros Hnone.
  assert (Hget : getattr_Category "__members__"
                 = Some (ClassAttribute "__members__")).
  { unfold getattr_Category. now rewrite Hnone. }
  split; [exact Hget|].
  rewrite list_all_products_category, Hget. simpl. discriminate.
Qed.

(** C5. For every GET /products request with the single query parameter
    available=v, the boolean the handler filters on is true exactly when v
    equals ["true"] up to the case of its letters, and the response is 200
    with the products whose [available] field is that boolean, in the order
    of the table; the store is left as it was. *)
Theorem list_all_products_available (hs : list (string * string))
  (b : option json) (v : string) (db : Store) :
  GET_products (mkRequest hs [("available", v)] b) db
  = (mkResponse status.HTTP_200_OK
       (jsonify (JArray (map serialize
          (filter (fun p => Bool.eqb (available p)
                              (equal_ignoring_case v "true")) (rows db)))))
       [], db).
Proof.
  unfold GET_products, respond, list_all_products.
  rewrite query_param_single.
  change (lower "available") with "available".
  change (Z.ltb 1 (MultiDict_len (args (mkRequest hs [("available", v)] b))))
    with false.
  cbv iota. simpl existsb. cbv iota. simpl String.eqb. cbv iota.
  rewrite (lower_eqb v "true") by reflexivity.
  reflexivity.
Qed.

(** One parameter under a key that is ["name"] in lower case. *)
Lemma list_all_products_name (hs : list (string * string))
  (b : option json) (k v : string) (db : Store) :
  lower k = "name" ->
  GET_products (mkRequest hs [(k, v)] b) db
  = (mkResponse status.HTTP_200_OK
       (jsonify (JArray (map serialize
          (filter (fun p => String.eqb (name p) v) (rows db))))) [], db).
Proof.
  intros Hk.
  unfold GET_products, respond, list_all_products.
  rewrite query_param_single, Hk. reflexivity.
Qed.

(** ** The Content-Type check *)

Lemma check_content_type_accepts (request : Request) (db : Store) :
  headers_get "Content-Type" (headers request) = Some "application/json" ->
  check_content_type request "application/json" db = (Ok tt, db).
Proof. intros E. unfold check_content_type. now rewrite E. Qed.

Lemma check_content_type_rejects (request : Request) (db : Store) :
  headers_get "Content-Type" (headers request) <> Some "application/json" ->
  check_content_type request "application/json" db
  = (Raise (HTTPException status.HTTP_415_UNSUPPORTED_MEDIA_TYPE
              "Content-Type must be application/json"), db).
Proof.
  intros Hne. unfold check_content_type.
  destruct (headers_get "Content-Type" (headers request)) as [given|];
    [|reflexivity].
  destruct (String.eqb_spec given "application/json") as [->|_];
    [congruence|reflexivity].
Qed.

Lemma create_products_unsupported (request : Request) (db : Store) :
  headers_get "Content-Type" (headers request) <> Some "application/json" ->
  POST_products request db = (unsupported_media_type, db).
Proof.
  intros Hne. unfold POST_products, respond, create_products, bind.
  now rewrite (check_content_type_rejects request db Hne).
Qed.

Lemma update_products_unsupported (request : Request) (product_id : Z)
  (db : Store) :
  headers_get "Content-Type" (headers request) <> Some "application/json" ->
  PUT_product request product_id db = (unsupported_media_type, db).
Proof.
  intros Hne. unfold PUT_product, respond, update_products, bind.
  now rewrite (check_content_type_rejects request db Hne).
Qed.

(** DELETE does not look at the request. *)
Lemma delete_products_cases (request : Request) (product_id : Z) (db : Store) :
  DELETE_product request product_id db
  = match find (has_id product_id) (rows db) with
    | Some product =>
        (mkResponse status.HTTP_204_NO_CONTENT (BodyText "") [],
         mkStore (filter (fun p => negb (same_row product p)) (rows db))
                 (next_id db))
    | None =>
        (mkResponse status.HTTP_404_NOT_FOUND (BodyError "") [], db)
    end.
Proof.
  unfold DELETE_product, respond, delete_products, bind, Product_find.
  destruct (find (has_id product_id) (rows db)); reflexivity.
Qed.

(** C7 (amended). POST /products and PUT /products/{id} require the
    Content-Type header to be exactly ["application/json"]: when the header
    is absent or has any other value (one that merely contains it, such as
    ["application/json; charset=utf-8"], included) the status is 415.
    DELETE /products/{id} does not check the header: its status is 204 or
    404 whatever the request carries. *)
Theorem content_type_of_mutating_endpoints (request : Request)
  (product_id : Z) (db : Store) :
  (headers_get "Content-Type" (headers request) <> Some "application/json" ->
   status_code (fst (POST_products request db))
   = status.HTTP_415_UNSUPPORTED_MEDIA_TYPE
   /\ status_code (fst (PUT_product request product_id db))
      = status.HTTP_415_UNSUPPORTED_MEDIA_TYPE)
  /\ (status_code (fst (DELETE_product request product_id db))
      = status.HTTP_204_NO_CONTENT
      \/ status_code (fst (DELETE_product request product_id db))
         = status.HTTP_404_NOT_FOUND).
Proof.
  split.
  - intros Hne.
    rewrite (create_products_unsupported request db Hne).
    rewrite (update_products_unsupported request product_id db Hne).
    split; reflexivity.
  - rewrite delete_products_cases.
    destruct (find (has_id product_id) (rows db)); [left|right]; reflexivity.
Qed.

(** ** PUT /products/{id} *)

Lemma update_products_not_found (request : Request) (product_id : Z)
  (db : Store) (data : json) :
  headers_get "Content-Type" (headers request) = Some "application/json" ->
  body_json request = Some data ->
  find (has_id product_id) (rows db) = None ->
  PUT_product request product_id db
  = (mkResponse status.HTTP_404_NOT_FOUND (BodyError "") [], db).
Proof.
  intros Hct Hbody Hfind.
  unfold PUT_product, respond, update_products, bind.
  rewrite (check_content_type_accepts request db Hct).
  unfold get_json. rewrite Hbody. unfold ret, Product_find.
  now rewrite Hfind.
Qed.

(** With the right Content-Type, a body that is not JSON text is rejected
    by [get_json], before the product is looked up. *)
Lemma update_products_not_json (request : Request) (product_id : Z)
  (db : Store) :
  headers_get "Content-Type" (headers request) = Some "application/json" ->
  body_json request = None ->
  PUT_product request product_id db
  = (mkResponse status.HTTP_400_BAD_REQUEST
       (BodyError "Failed to decode JSON object") [], db).
Proof.
  intros Hct Hbody.
  unfold PUT_product, respond, update_products, bind.
  rewrite (check_content_type_accepts request db Hct).
  unfold get_json. now rewrite Hbody.
Qed.

(** C9 (amended). For PUT /products/{id} the checks come in the order
    content type, decoding of the body as JSON, existence, validity of the
    decoded body: a request whose Content-Type is absent or is not
    ["application/json"] is answered 415 whether the id exists or not; with
    Content-Type ["application/json"], a body that is not JSON text is
    answered 400 whether the id exists or not, and a body that is JSON text
    for an id that does not exist is answered 404 whatever the JSON value
    is, one that [deserialize] would reject included; in all three cases
    the store is left as it was. *)
Theorem update_products_check_order (request : Request) (product_id : Z)
  (db : Store) :
  (headers_get "Content-Type" (headers request) <> Some "application/json" ->
   status_code (fst (PUT_product request product_id db))
   = status.HTTP_415_UNSUPPORTED_MEDIA_TYPE
   /\ snd (PUT_product request product_id db) = db)
  /\ (headers_get "Content-Type" (headers request) = Some "application/json" ->
      body_json request = None ->
      status_code (fst (PUT_product request product_id db))
      = status.HTTP_400_BAD_REQUEST
      /\ snd (PUT_product request product_id db) = db)
  /\ (forall data : json,
        headers_get "Content-Type" (headers request) = Some "application/json" ->
        body_json request = Some data ->
        find (has_id product_id) (rows db) = None ->
        status_code (fst (PUT_product request product_id db))
        = status.HTTP_404_NOT_FOUND
        /\ snd (PUT_product request product_id db) = db).
Proof.
  split; [|split].
  - intros Hne. rewrite (update_products_unsupported request product_id db Hne).
    split; reflexivity.
  - intros Hct Hbody.
    rewrite (update_products_not_json request product_id db Hct Hbody).
    split; reflexivity.
  - intros data Hct Hbody Hfind.
    rewrite (update_products_not_found request product_id db data Hct Hbody Hfind).
    split; reflexivity.
Qed.

(** ** The store *)

Lemma has_id_found (n : Z) (l : list Product) (p : Product) :
  find (has_id n) l = Some p -> id p = Some n.
Proof.
  intros Hf. apply find_some in Hf. destruct Hf as [_ Hid].
  unfold has_id in Hid. destruct (id p) as [m|]; [|discriminate].
  apply Z.eqb_eq in Hid. now subst.
Qed.

Lemma find_filter_negb {A : Type} (f : A -> bool) (l : list A) :
  find f (filter (fun x => negb (f x)) l) = None.
Proof.
  induction l as [|a l IH]; simpl; [reflexivity|].
  destruct (f a) eqn:Ha; simpl; [exact IH|]. now rewrite Ha.
Qed.

(** After [delete], no row has the id of the deleted product. *)
Lemma delete_removes (n : Z) (p : Product) (l : list Product) :
  id p = Some n ->
  find (has_id n) (filter (fun q => negb (same_row p q)) l) = None.
Proof.
  intros Hid. unfold same_row. rewrite Hid. apply find_filter_negb.
Qed.

Lemma rows_ok_find_none (bound n : Z) (l : list Product) :
  rows_ok bound l -> bound <= n -> find (has_id n) l = None.
Proof.
  induction l as [|p l IH]; simpl; [reflexivity|].
  intros [[m [Hid [Hlt _]]] Hrest] Hle.
  unfold has_id at 1. rewrite Hid.
  destruct (Z.eqb_spec m n) as [->|_]; [lia|]. now apply IH.
Qed.

Lemma find_app_none {A : Type} (f : A -> bool) (l r : list A) :
  find f l = None -> find f (l ++ r) = find f r.
Proof.
  induction l as [|a l IH]; simpl; [reflexivity|].
  destruct (f a); [discriminate|exact IH].
Qed.


Lemma rows_ok_app (b : Z) (l : list Product) (p : Product) :
  rows_ok b l -> id p = Some b -> rows_ok (b + 1) (l ++ [p]).
Proof.
  intros Hok Hid. induction l as [|q l IH]; simpl.
  - split; [|exact I]. exists b. repeat split; [assumption|lia].
  - destruct Hok as [[m [Hm [Hlt Hfresh]]] Hrest].
    split; [|now apply IH].
    exists m. repeat split; [assumption|lia|].
    rewrite forallb_app, Hfresh. simpl.
    unfold has_id. rewrite Hid.
    destruct (Z.eqb_spec b m) as [->|_]; [lia|reflexivity].
Qed.

(** [create] keeps the table well formed. *)
Lemma create_Store_ok (self : Product) (db : Store) :
  Store_ok db -> Store_ok (snd (create self db)).
Proof. intros Hok. unfold Store_ok. simpl. now apply rows_ok_app. Qed.

Lemma rows_ok_filter (b : Z) (f : Product -> bool) (l : list Product) :
  rows_ok b l -> rows_ok b (filter f l).
Proof.
  induction l as [|p l IH]; simpl; [easy|].
  intros [[m [Hid [Hlt Hfresh]]] Hrest].
  destruct (f p); simpl; [|now apply IH].
  split; [|now apply IH].
  exists m. repeat split; try assumption.
  clear -Hfresh. induction l as [|q l IHl]; simpl in *; [reflexivity|].
  apply andb_true_iff in Hfresh. destruct Hfresh as [Hq Hl].
  destruct (f q); simpl; [rewrite Hq; now apply IHl|now apply IHl].
Qed.

(** [delete] keeps the table well formed. *)
Lemma delete_Store_ok (self : Product) (db : Store) :
  Store_ok db -> Store_ok (snd (delete self db)).
Proof. intros Hok. unfold Store_ok. simpl. now apply rows_ok_filter. Qed.

Lemma has_id_same_row (self p : Product) (n : Z) :
  has_id n (if same_row self p then self else p) = has_id n p.
Proof.
  unfold same_row. destruct (id self) as [k|] eqn:Hself; [|reflexivity].
  destruct (has_id k p) eqn:Hk; [|reflexivity].
  unfold has_id in *. rewrite Hself.
  destruct (id p) as [m|]; [|discriminate].
  apply Z.eqb_eq in Hk. now subst.
Qed.

Lemma id_same_row (self p : Product) :
  id (if same_row self p then self else p) = id p.
Proof.
  unfold same_row. destruct (id self) as [k|] eqn:Hself; [|reflexivity].
  destruct (has_id k p) eqn:Hk; [|reflexivity].
  unfold has_id in Hk. destruct (id p) as [m|]; [|discriminate].
  apply Z.eqb_eq in Hk. now subst.
Qed.

Lemma rows_ok_update (b : Z) (self : Product) (l : list Product) :
  rows_ok b l ->
  rows_ok b (map (fun p => if same_row self p then self else p) l).
Proof.
  induction l as [|p l IH]; simpl; [easy|].
  intros [[m [Hid [Hlt Hfresh]]] Hrest]. split; [|now apply IH].
  exists m. rewrite id_same_row. repeat split; try assumption.
  clear -Hfresh. induction l as [|q l IHl]; simpl in *; [reflexivity|].
  apply andb_true_iff in Hfresh. destruct Hfresh as [Hq Hl].
  now rewrite has_id_same_row, Hq, IHl.
Qed.

(** [update] keeps the table well formed. *)
Lemma update_Store_ok (self : Product) (db : Store) :
  Store_ok db -> Store_ok (snd (update self db)).
Proof.
  intros Hok. unfold Store_ok, update.
  destruct (id self); simpl; [now apply rows_ok_update|exact Hok].
Qed.

(** ** DELETE /products/{id} *)

(** C8. For every id of an existing product, two DELETE /products/{id} in
    a row are answered 204 with an empty body, after which no product of
    the store has that id, and then 404. *)
Theorem delete_products_twice (request1 request2 : Request) (product_id : Z)
  (db : Store) :
  (exists product, find (has_id product_id) (rows db) = Some product) ->
  let first := DELETE_product request1 product_id db in
  let second := DELETE_product request2 product_id (snd first) in
  status_code (fst first) = status.HTTP_204_NO_CONTENT
  /\ data (fst first) = BodyText ""
  /\ find (has_id product_id) (rows (snd first)) = None
  /\ status_code (fst second) = status.HTTP_404_NOT_FOUND.
Proof.
  intros [product Hfind]. cbv zeta.
  pose proof (has_id_found product_id (rows db) product Hfind) as Hid.
  rewrite (delete_products_cases request1 product_id db), Hfind.
  simpl fst. simpl snd.
  split; [reflexivity|]. split; [reflexivity|].
  pose proof (delete_removes product_id product (rows db) Hid) as Hgone.
  split; [exact Hgone|].
  rewrite delete_products_cases. simpl rows. now rewrite Hgone.
Qed.

(** ** POST /products *)

Lemma create_products_cases (request : Request) (db : Store) :
  POST_products request db
  = match headers_get "Content-Type" (headers request) with
    | Some given =>
        if String.eqb given "application/json" then
          match body_json request with
          | None =>
              (mkResponse status.HTTP_400_BAD_REQUEST
                 (BodyError "Failed to decode JSON object") [], db)
          | Some body =>
              match deserialize Product_new body with
              | Raise (DataValidationError message) =>
                  (mkResponse status.HTTP_400_BAD_REQUEST
                     (BodyError message) [], db)
              | Raise (HTTPException code description) =>
                  (mkResponse code (BodyError description) [], db)
              | Raise (UnexpectedError what) =>
                  (mkResponse status.HTTP_500_INTERNAL_SERVER_ERROR
                     (BodyError what) [], db)
              | Ok product =>
                  let created :=
                    mkProduct (Some (next_id db)) (name product)
                      (description product) (price product)
                      (available product) (category product) in
                  (mkResponse status.HTTP_201_CREATED
                     (jsonify (serialize created))
                     [("Location", url_for_get_products (next_id db))],
                   mkStore (rows db ++ [created]) (next_id db + 1))
              end
          end
        else (unsupported_media_type, db)
    | None => (unsupported_media_type, db)
    end.
Proof.
  unfold POST_products, respond, create_products, bind, check_content_type,
    get_json.
  destruct (headers_get "Content-Type" (headers request)) as [given|];
    [|reflexivity].
  destruct (String.eqb given "application/json"); [|reflexivity].
  destruct (body_json request) as [body|]; [|reflexivity].
  unfold ret, lift.
  destruct (deserialize Product_new body)
    as [product|[message|code description|what]]; reflexivity.
Qed.

(** C10. POST /products is atomic on failure: whenever the response is 415
    or 400, the store after the request is the store before it; no product
    is created. *)
Theorem create_products_failure_keeps_store (request : Request) (db : Store) :
  status_code (fst (POST_products request db))
    = status.HTTP_415_UNSUPPORTED_MEDIA_TYPE
  \/ status_code (fst (POST_products request db))
       = status.HTTP_400_BAD_REQUEST ->
  snd (POST_products request db) = db.
Proof.
  rewrite create_products_cases.
  destruct (headers_get "Content-Type" (headers request)) as [given|];
    [|reflexivity].
  destruct (String.eqb given "application/json"); [|reflexivity].
  destruct (body_json request) as [body|]; [|reflexivity].
  destruct (deserialize Product_new body) as [product|e] eqn:Hd.
  - simpl. intros [E|E]; discriminate E.
  - destruct (deserialize_raise _ _ _ Hd) as [message ->]. reflexivity.
Qed.

Lemma get_products_cases (product_id : Z) (db : Store) :
  GET_product product_id db
  = match find (has_id product_id) (rows db) with
    | Some product =>
        (mkResponse status.HTTP_200_OK (jsonify (serialize product)) [], db)
    | None => (mkResponse status.HTTP_404_NOT_FOUND (BodyError "") [], db)
    end.
Proof.
  unfold GET_product, respond, get_products, bind, Product_find.
  destruct (find (has_id product_id) (rows db)); reflexivity.
Qed.

(** The URL that [url_for] builds for an id leads back to that id. *)
Lemma GET_url_for_get_products (product_id : Z) (db : Store) :
  GET_url (url_for_get_products product_id) db
  = Some (GET_product product_id db).
Proof.
  unfold GET_url, url_for_get_products.
  rewrite !strip_prefix_app, int_of_str_str_int. reflexivity.
Qed.

(** The row that [create] appends is the one [find] gives for the new
    id. *)
Lemma find_created (db : Store) (created : Product) :
  Store_ok db ->
  id created = Some (next_id db) ->
  find (has_id (next_id db)) (rows db ++ [created]) = Some created.
Proof.
  intros Hok Hid.
  rewrite find_app_none
    by (apply (rows_ok_find_none (next_id db)); [exact Hok|lia]).
  simpl. unfold has_id. now rewrite Hid, Z.eqb_refl.
Qed.

(** C6 (amended). For every POST /products request with Content-Type
    ["application/json"] and a body that [deserialize] accepts, on a
    well-formed store: the status is 201; the body is the serialized
    created product, with the name, description, availability and category
    of the payload and, under ["id"], the integer the store assigned; its
    ["price"] is text, the text of the decimal that the price of the
    payload converts to: a price given as the text of a well-formed decimal
    comes back as that text (["12.50"] for the text ["12.50"]), and a price
    given as a JSON number comes back as the decimal expansion of the float
    that the number is (["12.5"] for the number 12.50); and the response
    has a Location header whose URL, fetched with GET on the store after
    the request, is answered 200 with the same body. *)
Theorem create_products_created (request : Request) (db : Store)
  (payload : json) (product : Product) :
  Store_ok db ->
  headers_get "Content-Type" (headers request) = Some "application/json" ->
  body_json request = Some payload ->
  deserialize Product_new payload = Ok product ->
  let response := fst (POST_products request db) in
  let db' := snd (POST_products request db) in
  status_code response = status.HTTP_201_CREATED
  /\ (exists created : Product,
        data response = jsonify (serialize created)
        /\ In created (rows db')
        /\ id created = Some (next_id db)
        /\ json_field "id" (serialize created) = Some (JInt (next_id db))
        /\ json_field "name" (serialize created) = json_field "name" payload
        /\ json_field "description" (serialize created)
           = json_field "description" payload
        /\ json_field "available" (serialize created)
           = json_field "available" payload
        /\ json_field "category" (serialize created)
           = json_field "category" payload
        /\ (exists (v : json) (d : Decimal),
              json_field "price" payload = Some v
              /\ as_decimal v = Ok d
              /\ json_field "price" (serialize created)
                 = Some (JString (str_Decimal d)))
        /\ (forall d : Decimal,
              Decimal_wf d ->
              json_field "price" payload = Some (JString (str_Decimal d)) ->
              json_field "price" (serialize created)
              = Some (JString (str_Decimal d)))
        /\ (json_field "price" payload = Some (JString "12.50") ->
            json_field "price" (serialize created) = Some (JString "12.50"))
        /\ (json_field "price" payload = Some (JFloat float_12_5) ->
            json_field "price" (serialize created) = Some (JString "12.5")))
  /\ (exists location : string,
        headers_get "Location" (response_headers response) = Some location
        /\ GET_url location db'
           = Some (mkResponse status.HTTP_200_OK (data response) [], db')).
Proof.
  intros Hok Hct Hbody Hdes. cbv zeta.
  rewrite create_products_cases, Hct, Hbody, Hdes. simpl fst. simpl snd.
  cbv zeta. split; [reflexivity|]. split.
  - pose proof (deserialize_cases Product_new payload) as Hc.
    rewrite Hdes in Hc.
    destruct Hc as [_ [_ [m [-> [Hn [Hd [[v [Hv Hdec]] [Ha [s [Hs Hcat]]]]]]]]]].
    eexists. split; [reflexivity|].
    split; [apply in_or_app; right; now left|].
    split; [reflexivity|]. split; [reflexivity|].
    simpl json_field.
    split; [now rewrite Hn|]. split; [now rewrite Hd|].
    split; [now rewrite Ha|].
    split; [now rewrite Hs, (Category_of_name_some s _ Hcat)|].
    rewrite Hv. split; [|split; [|split]].
    + exists v, (price product). repeat split. exact Hdec.
    + intros d Hwf E. injection E as ->. simpl in Hdec.
      rewrite (Decimal_of_str_str_Decimal d Hwf) in Hdec.
      now injection Hdec as ->.
    + intros E. injection E as ->. simpl in Hdec. now injection Hdec as <-.
    + intros E. injection E as ->.
      change (as_decimal (JFloat float_12_5))
        with (Ok (A := Decimal) (mkDecimal false "125" 1)) in Hdec.
      now injection Hdec as <-.
  - eexists. split; [reflexivity|].
    rewrite GET_url_for_get_products, get_products_cases. simpl rows.
    rewrite find_created by (assumption || reflexivity). reflexivity.
Qed.

(* ===================================================================== *)
(** * Further properties of the handlers *)
(* ===================================================================== *)

(** ** GET /products and GET /products/{id} *)

Lemma is_upper_lower_ascii (c : ascii) : is_upper (lower_ascii c) = false.
Proof.
  unfold lower_ascii. destruct (is_upper c) eqn:Hu; [|exact Hu].
  unfold is_upper in *.
  apply andb_true_iff in Hu. destruct Hu as [Hlo Hhi].
  apply N.leb_le in Hlo. apply N.leb_le in Hhi.
  rewrite N_ascii_embedding by lia.
  apply andb_false_iff. right. apply N.leb_gt. lia.
Qed.

Lemma lower_lower (s : string) : lower (lower s) = lower s.
Proof.
  induction s as [|c s IH]; simpl; [reflexivity|].
  rewrite IH. f_equal.
  unfold lower_ascii at 1. now rewrite is_upper_lower_ascii.
Qed.

(** The handler reads the request through [len(request.args)] and the one
    item it takes from it. *)
Lemma list_all_products_reads (r1 r2 : Request) (db : Store) :
  MultiDict_len (args r1) = MultiDict_len (args r2) ->
  query_param r1 = query_param r2 ->
  GET_products r1 db = GET_products r2 db.
Proof.
  intros Hlen Hq. unfold GET_products, respond, list_all_products.
  now rewrite Hlen, Hq.
Qed.

Lemma list_all_products_store (request : Request) (db : Store) :
  snd (GET_products request db) = db.
Proof.
  unfold GET_products, respond, list_all_products.
  destruct (Z.ltb 1 (MultiDict_len (args request))); [reflexivity|].
  destruct (query_param request) as [param value].
  destruct (negb (existsb (String.eqb param)
                    [""; "name"; "category"; "available"])); [reflexivity|].
  destruct (String.eqb param "name"); [reflexivity|].
  destruct (String.eqb param "category").
  - destruct (getattr_Category value) as [[c|attribute]|]; reflexivity.
  - destruct (String.eqb param "available"); reflexivity.
Qed.

Lemma get_products_store (product_id : Z) (db : Store) :
  snd (GET_product product_id db) = db.
Proof.
  rewrite get_products_cases.
  destruct (find (has_id product_id) (rows db)); reflexivity.
Qed.

(** X1. GET never writes: whatever the request, the store after
    GET /products and after GET /products/{id} is the store before. *)
Theorem GET_keeps_store (request : Request) (product_id : Z) (db : Store) :
  snd (GET_products request db) = db /\ snd (GET_product product_id db) = db.
Proof.
  split; [apply list_all_products_store|apply get_products_store].
Qed.

(** X2. The key of the query parameter is read whatever the case of its
    letters, and neither the headers nor the body are read: a request with
    the one parameter [k=v] is answered as the request with the one
    parameter [lower(k)=v]. *)
Theorem list_all_products_key_case (hs hs' : list (string * string))
  (b b' : option json) (k v : string) (db : Store) :
  GET_products (mkRequest hs [(k, v)] b) db
  = GET_products (mkRequest hs' [(lower k, v)] b') db.
Proof.
  apply list_all_products_reads.
  - reflexivity.
  - now rewrite !query_param_single, lower_lower.
Qed.

Lemma MultiDict_keys_same_key (k : string) (rest : MultiDict) :
  Forall (fun kv => fst kv = k) rest ->
  filter (fun k' => negb (String.eqb k' k)) (MultiDict_keys rest) = [].
Proof.
  induction 1 as [|[k' v'] rest Hk Hrest IH]; simpl; [reflexivity|].
  simpl in Hk. subst k'. rewrite String.eqb_refl. simpl.
  now rewrite IH.
Qed.

(** X3. Parameters that all come under one key count as one parameter, and
    the first value is the one that is used: the request is answered as the
    request with the first parameter alone. *)
Theorem list_all_products_same_key (hs : list (string * string))
  (b : option json) (k v : string) (rest : MultiDict) (db : Store) :
  Forall (fun kv => fst kv = k) rest ->
  GET_products (mkRequest hs ((k, v) :: rest) b) db
  = GET_products (mkRequest hs [(k, v)] b) db.
Proof.
  intros Hsame.
  assert (Hkeys : MultiDict_keys ((k, v) :: rest) = [k]).
  { simpl. now rewrite (MultiDict_keys_same_key k rest Hsame). }
  apply list_all_products_reads.
  - unfold MultiDict_len. simpl args. now rewrite Hkeys.
  - rewrite query_param_single.
    unfold query_param, MultiDict_len, MultiDict_items. simpl args.
    rewrite Hkeys. simpl. now rewrite String.eqb_refl.
Qed.

(** A single parameter under the empty key is not rejected: the request
    is answered as the request without parameters, with every product. *)
Lemma list_all_products_empty_key (hs : list (string * string))
  (b : option json) (v : string) (db : Store) :
  GET_products (mkRequest hs [("", v)] b) db
  = (mkResponse status.HTTP_200_OK
       (jsonify (JArray (map serialize (rows db)))) [], db).
Proof. reflexivity. Qed.

(** X4. No value is rejected under the keys name and available: with one
    parameter whose key is one of them, in any case of letters, the status
    is 200 whatever the value. *)
Theorem list_all_products_accepts_values (hs : list (string * string))
  (b : option json) (k v : string) (db : Store) :
  lower k = "name" \/ lower k = "available" ->
  status_code (fst (GET_products (mkRequest hs [(k, v)] b) db))
  = status.HTTP_200_OK.
Proof.
  intros Hk. unfold GET_products, respond, list_all_products.
  rewrite query_param_single.
  destruct Hk as [-> | ->]; reflexivity.
Qed.

Lemma filter_all {A : Type} (l : list A) : filter (fun _ => true) l = l.
Proof. induction l as [|a l IH]; simpl; [reflexivity|now rewrite IH]. Qed.

(** X5. A listing never shows anything but products of the table: when
    the status is 200 the body is the serialized form of a selection of the
    rows, in the order of the table. *)
Theorem list_all_products_selection (request : Request) (db : Store) :
  status_code (fst (GET_products request db)) = status.HTTP_200_OK ->
  exists keep : Product -> bool,
    data (fst (GET_products request db))
    = jsonify (JArray (map serialize (filter keep (rows db)))).
Proof.
  unfold GET_products, respond, list_all_products.
  destruct (Z.ltb 1 (MultiDict_len (args request))); [discriminate|].
  destruct (query_param request) as [param value].
  destruct (negb (existsb (String.eqb param)
                    [""; "name"; "category"; "available"])); [discriminate|].
  destruct (String.eqb param "name").
  { intros _. eexists. reflexivity. }
  destruct (String.eqb param "category").
  { destruct (getattr_Category value) as [[c|attribute]|]; simpl;
      try discriminate.
    intros _. eexists. reflexivity. }
  destruct (String.eqb param "available").
  { intros _. eexists. reflexivity. }
  intros _. exists (fun _ => true). simpl. now rewrite filter_all.
Qed.

(** X7. The text of a Python boolean selects that boolean: with the one
    parameter [available=str(flag)] (["True"] or ["False"]) the response is
    200 with the products whose [available] field is [flag]. *)
Theorem list_all_products_available_str_bool (hs : list (string * string))
  (b : option json) (flag : bool) (db : Store) :
  GET_products (mkRequest hs [("available", str_bool flag)] b) db
  = (mkResponse status.HTTP_200_OK
       (jsonify (JArray (map serialize
          (filter (fun p => Bool.eqb (available p) flag) (rows db))))) [],
     db).
Proof. destruct flag; reflexivity. Qed.

(** ** PUT /products/{id}: the whole handler *)

Lemma deserialize_reads_id (self self' : Instance) (payload : json) :
  Instance_id self = Instance_id self' ->
  deserialize self payload = deserialize self' payload.
Proof. intros E. unfold deserialize. now rewrite E. Qed.

Lemma deserialize_keeps_id (self : Instance) (payload : json)
  (product : Product) :
  deserialize self payload = Ok product -> id product = Instance_id self.
Proof.
  intros E. pose proof (deserialize_cases self payload) as Hc.
  rewrite E in Hc. tauto.
Qed.

Lemma update_products_cases (request : Request) (product_id : Z) (db : Store) :
  PUT_product request product_id db
  = match headers_get "Content-Type" (headers request) with
    | Some given =>
        if String.eqb given "application/json" then
          match body_json request with
          | None =>
              (mkResponse status.HTTP_400_BAD_REQUEST
                 (BodyError "Failed to decode JSON object") [], db)
          | Some body =>
              match find (has_id product_id) (rows db) with
              | None =>
                  (mkResponse status.HTTP_404_NOT_FOUND (BodyError "") [], db)
              | Some stored =>
                  match deserialize (Some stored) body with
                  | Ok product =>
                      (mkResponse status.HTTP_200_OK
                         (jsonify (serialize product)) [],
                       mkStore
                         (map (fun p => if same_row product p
                                        then product else p) (rows db))
                         (next_id db))
                  | Raise e =>
                      (mkResponse status.HTTP_400_BAD_REQUEST
                         (BodyError
                            match e with
                            | DataValidationError message => message
                            | HTTPException _ description => description
                            | UnexpectedError what => what
                            end) [], db)
                  end
              end
          end
        else (unsupported_media_type, db)
    | None => (unsupported_media_type, db)
    end.
Proof.
  unfold PUT_product, respond, update_products, bind, check_content_type,
    get_json.
  destruct (headers_get "Content-Type" (headers request)) as [given|];
    [|reflexivity].
  destruct (String.eqb given "application/json"); [|reflexivity].
  destruct (body_json request) as [body|]; [|reflexivity].
  unfold ret, Product_find.
  destruct (find (has_id product_id) (rows db)) as [stored|] eqn:Hfind;
    [|reflexivity].
  unfold lift.
  destruct (deserialize (Some stored) body) as [product|e] eqn:Hdes.
  - pose proof (deserialize_keeps_id _ _ _ Hdes) as Hid. simpl in Hid.
    rewrite (has_id_found _ _ _ Hfind) in Hid.
    unfold update. rewrite Hid. reflexivity.
  - destruct (deserialize_raise _ _ _ Hdes) as [message ->]. reflexivity.
Qed.

(** The row that [update] writes is the one [find] gives for its id. *)
Lemma find_updated (n : Z) (self stored : Product) (l : list Product) :
  id self = Some n ->
  find (has_id n) l = Some stored ->
  find (has_id n) (map (fun p => if same_row self p then self else p) l)
  = Some self.
Proof.
  intros Hid. unfold same_row. rewrite Hid.
  induction l as [|p l IH]; simpl; [discriminate|].
  destruct (has_id n p) eqn:Hp.
  - intros _. unfold has_id. now rewrite Hid, Z.eqb_refl.
  - rewrite Hp. exact IH.
Qed.

Lemma update_twice (self : Product) (l : list Product) :
  map (fun p => if same_row self p then self else p)
    (map (fun p => if same_row self p then self else p) l)
  = map (fun p => if same_row self p then self else p) l.
Proof.
  rewrite map_map. apply map_ext. intros p.
  destruct (same_row self p) eqn:Hp; [|now rewrite Hp].
  destruct (same_row self self); reflexivity.
Qed.

(** X8. A PUT with Content-Type ["application/json"] and a body that
    [deserialize] accepts, for an id that exists, is answered 200 with the
    serialized product; that product has the id of the path, whatever the
    body says; a GET of the id afterwards gives the same body; and the
    table has as many rows as before and the same next id. *)
Theorem update_products_updated (request : Request) (product_id : Z)
  (db : Store) (payload : json) (stored product : Product) :
  headers_get "Content-Type" (headers request) = Some "application/json" ->
  body_json request = Some payload ->
  find (has_id product_id) (rows db) = Some stored ->
  deserialize (Some stored) payload = Ok product ->
  let response := fst (PUT_product request product_id db) in
  let db' := snd (PUT_product request product_id db) in
  response = mkResponse status.HTTP_200_OK (jsonify (serialize product)) []
  /\ id product = Some product_id
  /\ GET_product product_id db' = (response, db')
  /\ List.length (rows db') = List.length (rows db)
  /\ next_id db' = next_id db.
Proof.
  intros Hct Hbody Hfind Hdes. cbv zeta.
  rewrite update_products_cases, Hct, Hbody, Hfind, Hdes. simpl fst. simpl snd.
  assert (Hid : id product = Some product_id).
  { rewrite (deserialize_keeps_id _ _ _ Hdes). simpl.
    exact (has_id_found _ _ _ Hfind). }
  split; [reflexivity|]. split; [exact Hid|]. split.
  - rewrite get_products_cases. simpl rows.
    now rewrite (find_updated product_id product stored (rows db) Hid Hfind).
  - simpl. now rewrite length_map.
Qed.

Lemma update_products_statuses (request : Request) (product_id : Z)
  (db : Store) :
  (status_code (fst (PUT_product request product_id db)) = status.HTTP_200_OK
   \/ status_code (fst (PUT_product request product_id db))
      = status.HTTP_400_BAD_REQUEST
   \/ status_code (fst (PUT_product request product_id db))
      = status.HTTP_404_NOT_FOUND
   \/ status_code (fst (PUT_product request product_id db))
      = status.HTTP_415_UNSUPPORTED_MEDIA_TYPE)
  /\ (status_code (fst (PUT_product request product_id db))
      <> status.HTTP_200_OK ->
      snd (PUT_product request product_id db) = db).
Proof.
  rewrite update_products_cases.
  destruct (headers_get "Content-Type" (headers request)) as [given|];
    [|split; [auto|reflexivity]].
  destruct (String.eqb given "application/json"); [|split; [auto|reflexivity]].
  destruct (body_json request) as [body|]; [|split; [auto|reflexivity]].
  destruct (find (has_id product_id) (rows db)) as [stored|];
    [|split; [auto|reflexivity]].
  destruct (deserialize (Some stored) body) as [product|e].
  - split; [now left|]. simpl. intros Hne. now contradiction Hne.
  - split; [auto|reflexivity].
Qed.

(** X9. PUT is answered 200, 400, 404 or 415, and whenever the answer is
    not 200 the store is left as it was. *)
Theorem update_products_failure_keeps_store (request : Request)
  (product_id : Z) (db : Store) :
  In (status_code (fst (PUT_product request product_id db)))
     [status.HTTP_200_OK; status.HTTP_400_BAD_REQUEST;
      status.HTTP_404_NOT_FOUND; status.HTTP_415_UNSUPPORTED_MEDIA_TYPE]
  /\ (status_code (fst (PUT_product request product_id db))
      <> status.HTTP_200_OK ->
      snd (PUT_product request product_id db) = db).
Proof.
  destruct (update_products_statuses request product_id db) as [Hs Hk].
  split; [|exact Hk].
  simpl. destruct Hs as [E|[E|[E|E]]]; rewrite E; auto.
Qed.

(** X10. PUT is idempotent: the same request for the same id, sent again
    on the store that the first one left, is answered as the first one and
    leaves that store as it is. *)
Theorem update_products_idempotent (request : Request) (product_id : Z)
  (db : Store) :
  PUT_product request product_id (snd (PUT_product request product_id db))
  = (fst (PUT_product request product_id db),
     snd (PUT_product request product_id db)).
Proof.
  destruct (Z.eq_dec
              (status_code (fst (PUT_product request product_id db)))
              status.HTTP_200_OK) as [Hok|Hne].
  2:{ pose proof (proj2 (update_products_statuses request product_id db) Hne)
        as Hs.
      transitivity (PUT_product request product_id db);
        [now rewrite Hs|now destruct (PUT_product request product_id db)]. }
  revert Hok. rewrite (update_products_cases request product_id db).
  destruct (headers_get "Content-Type" (headers request)) as [given|] eqn:Hct;
    [|discriminate].
  destruct (String.eqb given "application/json") eqn:Hjson; [|discriminate].
  destruct (body_json request) as [body|] eqn:Hbody; [|discriminate].
  destruct (find (has_id product_id) (rows db)) as [stored|] eqn:Hfind;
    [|discriminate].
  destruct (deserialize (Some stored) body) as [product|e] eqn:Hdes;
    [|discriminate].
  intros _. simpl fst. simpl snd.
  assert (Hid : id product = Some product_id).
  { rewrite (deserialize_keeps_id _ _ _ Hdes). simpl.
    exact (has_id_found _ _ _ Hfind). }
  rewrite update_products_cases, Hct, Hjson, Hbody. simpl rows.
  rewrite (find_updated product_id product stored (rows db) Hid Hfind).
  rewrite (deserialize_reads_id (Some product) (Some stored) body)
    by (simpl; rewrite Hid; symmetry; exact (has_id_found _ _ _ Hfind)).
  rewrite Hdes. simpl next_id. now rewrite update_twice.
Qed.

(** X11. A PUT of the serialized form of a product, for an id that exists,
    is answered 200 with that product under the id of the path, and a GET
    of the id afterwards gives the same body. *)
Theorem update_products_serialized (product_id : Z) (db : Store)
  (stored p : Product) :
  Decimal_wf (price p) ->
  find (has_id product_id) (rows db) = Some stored ->
  let response :=
    mkResponse status.HTTP_200_OK
      (jsonify (serialize (set_id (Some product_id) p))) [] in
  fst (PUT_product (json_request (serialize p)) product_id db) = response
  /\ fst (GET_product product_id
            (snd (PUT_product (json_request (serialize p)) product_id db)))
     = response.
Proof.
  intros Hwf Hfind. cbv zeta.
  pose proof (has_id_found _ _ _ Hfind) as Hstored.
  assert (Hdes : deserialize (Some stored) (serialize p)
                 = Ok (set_id (Some product_id) p)).
  { rewrite (deserialize_serialize (Some stored) p Hwf). simpl Instance_id.
    now rewrite Hstored. }
  rewrite update_products_cases.
  change (headers_get "Content-Type" (headers (json_request (serialize p))))
    with (Some "application/json").
  simpl String.eqb. cbv iota. simpl body_json. cbv iota.
  rewrite Hfind, Hdes. simpl fst. simpl snd.
  split; [reflexivity|].
  rewrite get_products_cases. simpl rows.
  now rewrite (find_updated product_id (set_id (Some product_id) p) stored
                 (rows db) eq_refl Hfind).
Qed.

(** ** DELETE /products/{id}: what it leaves *)

Lemma find_filter_other (i j : Z) (l : list Product) :
  j <> i ->
  find (has_id j) (filter (fun q => negb (has_id i q)) l) = find (has_id j) l.
Proof.
  intros Hne. induction l as [|p l IH]; simpl; [reflexivity|].
  destruct (has_id i p) eqn:Hi; simpl.
  - assert (Hj : has_id j p = false).
    { unfold has_id in *. destruct (id p) as [m|]; [|reflexivity].
      apply Z.eqb_eq in Hi. subst m. now apply Z.eqb_neq. }
    now rewrite Hj.
  - now rewrite IH.
Qed.

Lemma filter_absent (i : Z) (l : list Product) :
  forallb (fun q => negb (has_id i q)) l = true ->
  filter (fun q => negb (has_id i q)) l = l.
Proof.
  induction l as [|p l IH]; simpl; [reflexivity|].
  intros Hall. apply andb_true_iff in Hall. destruct Hall as [Hp Hl].
  now rewrite Hp, IH.
Qed.

Lemma find_none_absent (i : Z) (l : list Product) :
  find (has_id i) l = None ->
  forallb (fun q => negb (has_id i q)) l = true.
Proof.
  induction l as [|p l IH]; simpl; [reflexivity|].
  destruct (has_id i p); [discriminate|]. exact IH.
Qed.

Lemma rows_ok_delete_length (b i : Z) (l : list Product) (p : Product) :
  rows_ok b l ->
  find (has_id i) l = Some p ->
  S (List.length (filter (fun q => negb (has_id i q)) l)) = List.length l.
Proof.
  induction l as [|q l IH]; simpl; [discriminate|].
  intros [[m [Hid [_ Hfresh]]] Hrest].
  destruct (has_id i q) eqn:Hq; simpl.
  - intros _. f_equal. f_equal. apply filter_absent.
    unfold has_id in Hq. rewrite Hid in Hq. apply Z.eqb_eq in Hq. now subst m.
  - intros Hfind. f_equal. now apply IH.
Qed.

(** X12. DELETE touches the product of the path and nothing else: the
    next id is kept and every other id is looked up as before; when the id
    does not exist the store is left as it was; and when it exists, in a
    well-formed store, the table has exactly one row less. *)
Theorem delete_products_frame (request : Request) (product_id : Z)
  (db : Store) :
  let db' := snd (DELETE_product request product_id db) in
  next_id db' = next_id db
  /\ (forall j : Z, j <> product_id ->
        find (has_id j) (rows db') = find (has_id j) (rows db))
  /\ (find (has_id product_id) (rows db) = None -> db' = db)
  /\ (Store_ok db ->
      (exists p, find (has_id product_id) (rows db) = Some p) ->
      S (List.length (rows db')) = List.length (rows db)).
Proof.
  cbv zeta. rewrite delete_products_cases.
  destruct (find (has_id product_id) (rows db)) as [p|] eqn:Hfind; simpl.
  - pose proof (has_id_found _ _ _ Hfind) as Hid.
    unfold same_row. rewrite Hid.
    split; [reflexivity|]. split; [|split].
    + intros j Hne. now apply find_filter_other.
    + discriminate.
    + intros Hok _. now apply (rows_ok_delete_length (next_id db) _ _ p).
  - split; [reflexivity|]. split; [reflexivity|]. split; [reflexivity|].
    intros _ [p Hp]. discriminate Hp.
Qed.

(** ** POST /products: what it leaves *)

Lemma find_app_some {A : Type} (f : A -> bool) (l r : list A) (a : A) :
  find f l = Some a -> find f (l ++ r) = Some a.
Proof.
  induction l as [|b l IH]; simpl; [discriminate|].
  destruct (f b); [easy|exact IH].
Qed.

(** X13. POST is answered 201, 400 or 415.  When the answer is 201 exactly
    one row has been added, at the end of the table, under the next id of
    the store, and the next id has moved by one.  In every case the
    products that were in the store are looked up as before. *)
Theorem create_products_adds_one (request : Request) (db : Store) :
  let response := fst (POST_products request db) in
  let db' := snd (POST_products request db) in
  In (status_code response)
     [status.HTTP_201_CREATED; status.HTTP_400_BAD_REQUEST;
      status.HTTP_415_UNSUPPORTED_MEDIA_TYPE]
  /\ (status_code response = status.HTTP_201_CREATED ->
      exists created : Product,
        id created = Some (next_id db)
        /\ data response = jsonify (serialize created)
        /\ db' = mkStore (rows db ++ [created]) (next_id db + 1))
  /\ (forall (j : Z) (p : Product),
        find (has_id j) (rows db) = Some p ->
        find (has_id j) (rows db') = Some p).
Proof.
  cbv zeta. rewrite create_products_cases.
  destruct (headers_get "Content-Type" (headers request)) as [given|].
  2:{ simpl. split; [auto|]. split; [discriminate|auto]. }
  destruct (String.eqb given "application/json").
  2:{ simpl. split; [auto|]. split; [discriminate|auto]. }
  destruct (body_json request) as [body|].
  2:{ simpl. split; [auto|]. split; [discriminate|auto]. }
  destruct (deserialize Product_new body) as [product|e] eqn:Hdes.
  - simpl. split; [auto|]. split.
    + intros _. eexists. refine (conj _ (conj eq_refl eq_refl)). reflexivity.
    + intros j p Hfind. now apply find_app_some.
  - destruct (deserialize_raise _ _ _ Hdes) as [message ->].
    simpl. split; [auto|]. split; [discriminate|auto].
Qed.

(** The serialized form of a product, posted by the test client. *)
Lemma create_products_serialized (p : Product) (db : Store) :
  Decimal_wf (price p) ->
  POST_products (json_request (serialize p)) db
  = (mkResponse status.HTTP_201_CREATED
       (jsonify (serialize (set_id (Some (next_id db)) p)))
       [("Location", url_for_get_products (next_id db))],
     mkStore (rows db ++ [set_id (Some (next_id db)) p]) (next_id db + 1)).
Proof.
  intros Hwf. rewrite create_products_cases.
  change (headers_get "Content-Type" (headers (json_request (serialize p))))
    with (Some "application/json").
  simpl String.eqb. cbv iota. simpl body_json. cbv iota.
  now rewrite (deserialize_serialize Product_new p Hwf).
Qed.

(** X15. Posting the serialized form of a product whose price is a
    well-formed decimal creates that very product: the answer is 201, its
    body is the product under the id the store assigned, the text under
    ["price"] reads back as the price of the product, and a GET of the
    Location gives the same body. *)
Theorem create_products_of_serialized (p : Product) (db : Store) :
  Decimal_wf (price p) ->
  Store_ok db ->
  let response := fst (POST_products (json_request (serialize p)) db) in
  let db' := snd (POST_products (json_request (serialize p)) db) in
  status_code response = status.HTTP_201_CREATED
  /\ data response = jsonify (serialize (set_id (Some (next_id db)) p))
  /\ response_id response = Some (next_id db)
  /\ (exists text : string,
        json_field "price" (serialize (set_id (Some (next_id db)) p))
        = Some (JString text)
        /\ Decimal_of_str text = Some (price p))
  /\ GET_url (url_for_get_products (next_id db)) db'
     = Some (mkResponse status.HTTP_200_OK (data response) [], db').
Proof.
  intros Hwf Hok. cbv zeta. rewrite (create_products_serialized p db Hwf).
  simpl fst. simpl snd.
  split; [reflexivity|]. split; [reflexivity|]. split; [reflexivity|]. split.
  - eexists. split; [reflexivity|]. now apply Decimal_of_str_str_Decimal.
  - rewrite GET_url_for_get_products, get_products_cases. simpl rows.
    now rewrite find_created.
Qed.

(** ** The invariant of the table *)

(** X14. Every handler keeps the table well formed: after POST, PUT,
    DELETE and GET on a store whose rows have distinct ids below the next
    id, the rows still have distinct ids below the next id. *)
Theorem handlers_keep_Store_ok (request : Request) (product_id : Z)
  (db : Store) :
  Store_ok db ->
  Store_ok (snd (POST_products request db))
  /\ Store_ok (snd (PUT_product request product_id db))
  /\ Store_ok (snd (DELETE_product request product_id db))
  /\ Store_ok (snd (GET_products request db))
  /\ Store_ok (snd (GET_product product_id db)).
Proof.
  intros Hok. repeat split.
  - rewrite create_products_cases.
    destruct (headers_get "Content-Type" (headers request)) as [given|];
      [|exact Hok].
    destruct (String.eqb given "application/json"); [|exact Hok].
    destruct (body_json request) as [body|]; [|exact Hok].
    destruct (deserialize Product_new body) as [product|[m|c d|w]];
      try exact Hok.
    apply (create_Store_ok product db Hok).
  - rewrite update_products_cases.
    destruct (headers_get "Content-Type" (headers request)) as [given|];
      [|exact Hok].
    destruct (String.eqb given "application/json"); [|exact Hok].
    destruct (body_json request) as [body|]; [|exact Hok].
    destruct (find (has_id product_id) (rows db)) as [stored|]; [|exact Hok].
    destruct (deserialize (Some stored) body) as [product|e]; [|exact Hok].
    unfold Store_ok. simpl. now apply rows_ok_update.
  - rewrite delete_products_cases.
    destruct (find (has_id product_id) (rows db)) as [p|]; [|exact Hok].
    apply (delete_Store_ok p db Hok).
  - now rewrite list_all_products_store.
  - now rewrite get_products_store.
Qed.

(** ** The helpers of the route tests *)

Lemma response_id_created (p : Product) (n : Z) (hs : list (string * string)) :
  response_id (mkResponse status.HTTP_201_CREATED
                 (jsonify (serialize (set_id (Some n) p))) hs) = Some n.
Proof. reflexivity. Qed.

Lemma _create_products_run (test_products : list Product) (db : Store) :
  Forall (fun p => Decimal_wf (price p)) test_products ->
  _create_products test_products db
  = Some (number_from (next_id db) test_products,
          mkStore (rows db ++ number_from (next_id db) test_products)
                  (next_id db + Z.of_nat (List.length test_products))).
Proof.
  intros Hwf. revert db.
  induction Hwf as [|p ps Hp Hps IH]; intros db.
  - simpl. rewrite app_nil_r, Z.add_0_r. now destruct db.
  - cbn [_create_products].
    rewrite (create_products_serialized p db Hp).
    change (Z.eqb (status_code
                     (mkResponse status.HTTP_201_CREATED
                        (jsonify (serialize (set_id (Some (next_id db)) p)))
                        [("Location", url_for_get_products (next_id db))]))
                  status.HTTP_201_CREATED) with true.
    cbv iota. rewrite response_id_created, IH.
    cbn [rows next_id number_from List.length].
    rewrite <- app_assoc. simpl app.
    do 3 f_equal. lia.
Qed.

(** X6. With one parameter whose key is ["name"] in any case of letters,
    the response is 200 with the products whose name is exactly the value
    (the case of its letters counts), in the order of the table. *)
Theorem list_all_products_by_name (hs : list (string * string))
  (b : option json) (k v : string) (db : Store) :
  lower k = "name" ->
  GET_products (mkRequest hs [(k, v)] b) db
  = (mkResponse status.HTTP_200_OK
       (jsonify (JArray (map serialize
          (filter (fun p => String.eqb (name p) v) (rows db))))) [], db)
  /\ (forall p : Product,
        In p (filter (fun p => String.eqb (name p) v) (rows db)) <->
        In p (rows db) /\ name p = v).
Proof.
  intros Hk. split; [now apply list_all_products_name|].
  intros p. rewrite filter_In. now rewrite String.eqb_eq.
Qed.

Lemma rows_ok_number_from (b : Z) (ps l : list Product) :
  rows_ok b l ->
  rows_ok (b + Z.of_nat (List.length ps)) (l ++ number_from b ps).
Proof.
  revert b l. induction ps as [|p ps IH]; intros b l Hok.
  - simpl. now rewrite app_nil_r, Z.add_0_r.
  - cbn [number_from List.length].
    change (l ++ set_id (Some b) p :: number_from (b + 1) ps)%list
      with (l ++ [set_id (Some b) p] ++ number_from (b + 1) ps)%list.
    rewrite app_assoc.
    replace (b + Z.of_nat (S (List.length ps)))
      with (b + 1 + Z.of_nat (List.length ps)) by lia.
    apply IH. now apply rows_ok_app.
Qed.

Lemma length_number_from (n : Z) (ps : list Product) :
  List.length (number_from n ps) = List.length ps.
Proof.
  revert n. induction ps as [|p ps IH]; intros n; simpl; [reflexivity|].
  now rewrite IH.
Qed.

(** X16. [_create_products] never fails its assertion on products whose
    prices are well-formed decimals: each is created (status 201), the
    products it returns are the given ones under consecutive ids from the
    next id of the store on, they are appended to the table in that order,
    and a well-formed store stays well formed. *)
Theorem _create_products_creates (test_products : list Product) (db : Store) :
  Forall (fun p => Decimal_wf (price p)) test_products ->
  exists (products : list Product) (db' : Store),
    _create_products test_products db = Some (products, db')
    /\ products = number_from (next_id db) test_products
    /\ List.length products = List.length test_products
    /\ rows db' = (rows db ++ products)%list
    /\ next_id db' = next_id db + Z.of_nat (List.length test_products)
    /\ (Store_ok db -> Store_ok db').
Proof.
  intros Hwf. do 2 eexists.
  split; [apply (_create_products_run test_products db Hwf)|].
  split; [reflexivity|]. split; [apply length_number_from|].
  split; [reflexivity|]. split; [reflexivity|].
  intros Hok. unfold Store_ok. simpl. now apply rows_ok_number_from.
Qed.

(** X17. The listing tests, for any products with well-formed prices
    created by [_create_products] on an empty table: [get_product_count]
    gives their number, and GET /products with [name=v], with
    [category=<name of a member>] and with [available=str(flag)] is
    answered 200 with exactly the created products that have that name,
    that category, that availability. *)
Theorem list_after_create_products (test_products products : list Product)
  (db db' : Store) :
  Forall (fun p => Decimal_wf (price p)) test_products ->
  rows db = [] ->
  _create_products test_products db = Some (products, db') ->
  get_product_count db' = Some (List.length test_products)
  /\ (forall v : string,
        fst (GET_products (query [("name", v)]) db')
        = mkResponse status.HTTP_200_OK
            (jsonify (JArray (map serialize
               (filter (fun p => String.eqb (name p) v) products)))) [])
  /\ (forall c : Category,
        fst (GET_products (query [("category", Category_name c)]) db')
        = mkResponse status.HTTP_200_OK
            (jsonify (JArray (map serialize
               (filter (fun p => if Category_eq_dec (category p) c
                                 then true else false) products)))) [])
  /\ (forall flag : bool,
        fst (GET_products (query [("available", str_bool flag)]) db')
        = mkResponse status.HTTP_200_OK
            (jsonify (JArray (map serialize
               (filter (fun p => Bool.eqb (available p) flag) products)))) []).
Proof.
  intros Hwf Hempty Hrun.
  rewrite (_create_products_run test_products db Hwf) in Hrun.
  injection Hrun as Hproducts Hdb'. rewrite Hempty in Hdb'. simpl in Hdb'.
  subst db'. rewrite Hproducts.
  split; [|split; [|split]].
  - unfold get_product_count. unfold query.
    rewrite list_all_products_all. simpl.
    rewrite length_map, <- Hproducts. now rewrite length_number_from.
  - intros v. unfold query.
    now rewrite (list_all_products_name [] None "name" v _ eq_refl).
  - intros c. unfold query. now rewrite list_all_products_category_member.
  - intros flag. destruct flag; reflexivity.
Qed.

(** X18. The life of a product through the API, for any product with a
    well-formed price and any well-formed store: after the POST of its
    serialized form, a GET of the new id is answered 200 with the product;
    a DELETE of the id is then answered 204; and a GET of the id after
    that is answered 404. *)
Theorem create_get_delete_get (p : Product) (request : Request) (db : Store) :
  Decimal_wf (price p) ->
  Store_ok db ->
  let n := next_id db in
  let db1 := snd (POST_products (json_request (serialize p)) db) in
  let db2 := snd (DELETE_product request n db1) in
  fst (GET_product n db1)
  = mkResponse status.HTTP_200_OK
      (jsonify (serialize (set_id (Some n) p))) []
  /\ status_code (fst (DELETE_product request n db1))
     = status.HTTP_204_NO_CONTENT
  /\ status_code (fst (GET_product n db2)) = status.HTTP_404_NOT_FOUND
  /\ rows db2 = rows db.
Proof.
  intros Hwf Hok. cbv zeta.
  rewrite (create_products_serialized p db Hwf). simpl snd.
  assert (Hfind : find (has_id (next_id db))
                    (rows db ++ [set_id (Some (next_id db)) p])%list
                  = Some (set_id (Some (next_id db)) p))
    by now apply find_created.
  rewrite get_products_cases. simpl rows. rewrite Hfind.
  split; [reflexivity|].
  rewrite delete_products_cases. simpl rows. rewrite Hfind. simpl fst. simpl snd.
  split; [reflexivity|].
  rewrite get_products_cases. simpl rows.
  rewrite (delete_removes (next_id db) (set_id (Some (next_id db)) p) _ eq_refl).
  split; [reflexivity|].
  unfold same_row. simpl id.
  rewrite filter_app. simpl.
  replace (has_id (next_id db) (set_id (Some (next_id db)) p)) with true
    by (unfold has_id; simpl; now rewrite Z.eqb_refl).
  simpl. rewrite app_nil_r.
  apply filter_absent. apply find_none_absent.
  apply (rows_ok_find_none (next_id db)); [exact Hok|lia].
Qed.

(** ** The model tests: [create], [find], [update], [delete] together *)

Lemma update_other_rows (b n : Z) (self : Product) (l : list Product) :
  rows_ok b l -> id self = Some n -> b <= n ->
  map (fun q => if same_row self q then self else q) l = l.
Proof.
  intros Hok Hid Hle. unfold same_row. rewrite Hid.
  induction l as [|q l IH]; simpl; [reflexivity|].
  destruct Hok as [[m [Hm [Hlt _]]] Hrest].
  rewrite (IH Hrest). unfold has_id. rewrite Hm.
  destruct (Z.eqb_spec m n) as [->|_]; [lia|reflexivity].
Qed.

(** X19. [create] and [find] (the tests "add a product" and "read a
    product"): on a well-formed store, [create] gives the product an id,
    whatever id it came with, adds one row, and [find] of that id gives the
    product back with the same name, description, price, availability and
    category. *)
Theorem create_then_find (p : Product) (db : Store) :
  Store_ok db ->
  exists (created : Product) (db' : Store),
    create p db = (Ok created, db')
    /\ id created = Some (next_id db)
    /\ Product_find (next_id db) db' = (Ok (Some created), db')
    /\ name created = name p
    /\ description created = description p
    /\ price created = price p
    /\ available created = available p
    /\ category created = category p
    /\ List.length (rows db') = S (List.length (rows db)).
Proof.
  intros Hok. do 2 eexists. split; [reflexivity|]. split; [reflexivity|].
  split.
  - unfold Product_find. simpl rows. now rewrite find_created.
  - repeat (split; [reflexivity|]). simpl.
    rewrite List.length_app. simpl. lia.
Qed.

(** X20. [update] after [create] (the test "update a product"): on a
    well-formed store, a created product whose description is changed and
    that is then updated is the last row of the table, with its id and the
    new description; the rows that were there are as before and no row is
    added by the update. *)
Theorem create_then_update (p : Product) (text : string) (db : Store) :
  Store_ok db ->
  exists (created : Product) (db1 db2 : Store),
    create p db = (Ok created, db1)
    /\ update (set_description text created) db1 = (Ok tt, db2)
    /\ rows db2 = (rows db ++ [set_description text created])%list
    /\ id (set_description text created) = Some (next_id db)
    /\ description (set_description text created) = text
    /\ Product_find (next_id db) db2
       = (Ok (Some (set_description text created)), db2).
Proof.
  intros Hok. do 3 eexists. split; [reflexivity|].
  split; [reflexivity|].
  assert (Hrows :
    map (fun q => if same_row
                       (set_description text (set_id (Some (next_id db)) p)) q
                  then set_description text (set_id (Some (next_id db)) p)
                  else q)
        (rows db ++ [set_id (Some (next_id db)) p])
    = (rows db ++ [set_description text (set_id (Some (next_id db)) p)])%list).
  { rewrite map_app.
    rewrite (update_other_rows (next_id db) (next_id db)
               (set_description text (set_id (Some (next_id db)) p))
               (rows db) Hok eq_refl (Z.le_refl _)).
    simpl. unfold same_row, has_id. simpl. now rewrite Z.eqb_refl. }
  split; [exact Hrows|]. split; [reflexivity|]. split; [reflexivity|].
  unfold Product_find. simpl rows. unfold set_id in Hrows. rewrite Hrows.
  now rewrite find_created.
Qed.

(** X21. [delete] after two [create] (the test "delete a product"): on a
    well-formed store, when two products are created and the first is
    deleted, the table is the one before with the second product at its
    end, under the id it was given. *)
Theorem create_two_delete_first (p1 p2 : Product) (db : Store) :
  Store_ok db ->
  exists (product_1 product_2 : Product) (db1 db2 db3 : Store),
    create p1 db = (Ok product_1, db1)
    /\ create p2 db1 = (Ok product_2, db2)
    /\ delete product_1 db2 = (Ok tt, db3)
    /\ rows db3 = (rows db ++ [product_2])%list
    /\ id product_2 = Some (next_id db + 1)
    /\ List.length (rows db3) = S (List.length (rows db)).
Proof.
  intros Hok. do 5 eexists. split; [reflexivity|]. split; [reflexivity|].
  split; [reflexivity|].
  assert (Hrows :
    filter (fun q => negb (same_row (set_id (Some (next_id db)) p1) q))
      ((rows db ++ [set_id (Some (next_id db)) p1])
         ++ [set_id (Some (next_id db + 1)) p2])
    = (rows db ++ [set_id (Some (next_id db + 1)) p2])%list).
  { unfold same_row. simpl id. rewrite !filter_app. simpl.
    replace (has_id (next_id db) (set_id (Some (next_id db)) p1)) with true
      by (unfold has_id; simpl; now rewrite Z.eqb_refl).
    replace (has_id (next_id db) (set_id (Some (next_id db + 1)) p2))
      with false
      by (unfold has_id; simpl; symmetry; apply Z.eqb_neq; lia).
    simpl. rewrite app_nil_r. f_equal.
    apply filter_absent. apply find_none_absent.
    apply (rows_ok_find_none (next_id db)); [exact Hok|lia]. }
  split; [exact Hrows|]. split; [reflexivity|].
  simpl rows. unfold set_id in Hrows. rewrite Hrows.
  rewrite List.length_app. simpl. lia.
Qed.
End Properties.

(* ===================================================================== *)
(** * The properties on the sample data *)
(* ===================================================================== *)

Lemma empty_store_ok : Store_ok empty_store.
Proof. exact I. Qed.

Lemma fedora_store_ok : Store_ok fedora_store.
Proof.
  split; [|exact I]. exists 1. repeat split.
Qed.

(** *** Decimals *)

Example str_Decimal_12_50 : str_Decimal price_12_50 = "12.50".
Proof. reflexivity. Qed.

Example str_Decimal_small : str_Decimal (mkDecimal true "5" 2) = "-0.05".
Proof. reflexivity. Qed.

Example Decimal_of_str_12_50 : Decimal_of_str "12.50" = Some price_12_50.
Proof. reflexivity. Qed.

Example Decimal_of_str_NoWay : Decimal_of_str "NoWay" = None.
Proof. reflexivity. Qed.

Example Decimal_of_float_12_5 :
  str_Decimal (Decimal_of_float float_12_5) = "12.5".
Proof. reflexivity. Qed.

(** The same float with a mantissa that is not reduced: 12.5 as 100 times
    two to the -3. *)
Example Decimal_of_float_12_5_unreduced :
  Decimal_of_float (mkFloat false 100 (-3)) = Decimal_of_float float_12_5.
Proof. reflexivity. Qed.

(** The float nearest to 0.1 is 3602879701896397 / 2^55. *)
Example Decimal_of_float_0_1 :
  str_Decimal (Decimal_of_float (mkFloat false 3602879701896397 (-55)))
  = "0.1000000000000000055511151231257827021181583404541015625".
Proof. vm_compute. reflexivity. Qed.

Example Decimal_of_float_whole :
  str_Decimal (Decimal_of_float (mkFloat true 3 2)) = "-12".
Proof. reflexivity. Qed.

Example Decimal_eq_trailing_zero :
  Decimal_eq price_12_50 (mkDecimal false "125" 1).
Proof. reflexivity. Qed.

(** *** [serialize] and [deserialize] *)

(** The round trip on the Fedora. *)
Lemma serialize_deserialize_round_trip_fedora :
  Decimal_wf (price fedora)
  /\ exists P' : Product,
       deserialize Product_new (serialize fedora) = Ok P'
       /\ name P' = name fedora
       /\ description P' = description fedora
       /\ available P' = available fedora
       /\ category P' = category fedora
       /\ Decimal_eq (price P') (price fedora).
Proof.
  split.
  - split; reflexivity.
  - apply (serialize_deserialize_round_trip Product_new fedora).
    split; reflexivity.
Defined.

(** C2, as stated, fails on a payload whose price is null: every key is
    there, ["available"] is a boolean and ["category"] names a member, and
    [deserialize] still fails with a validation error. *)
Lemma deserialize_null_price_not_listed :
  ~ (is_validation_error
       (deserialize (Category := NamedCategory) Product_new null_price_payload)
     <-> listed_failure (Category := NamedCategory) null_price_payload = true).
Proof.
  intros [Hfails _].
  assert (Hl : listed_failure (Category := NamedCategory) null_price_payload
               = true).
  { apply Hfails. eexists. reflexivity. }
  discriminate Hl.
Qed.

(** The failures the specification names (here ["available"] as the string
    ["true"]) and a payload that is accepted. *)
Lemma deserialize_listed_failures_samples :
  (listed_failure (Category := NamedCategory) string_available_payload = true
   /\ is_validation_error
        (deserialize (Category := NamedCategory) Product_new
           string_available_payload))
  /\ (deserialize (Some fedora) fedora_payload = Ok fedora
      /\ listed_failure (Category := NamedCategory) fedora_payload = false
      /\ id fedora = Instance_id (Some fedora)).
Proof.
  split.
  - split; [reflexivity|].
    apply (proj1 (deserialize_listed_failures (Category := NamedCategory)
                    Product_new string_available_payload)).
    reflexivity.
  - split; [reflexivity|].
    pose proof (proj2 (deserialize_listed_failures (Some fedora) fedora_payload)
                  fedora eq_refl) as Hok.
    split; [exact (proj1 Hok)|exact (proj1 (proj2 Hok))].
Defined.

Example deserialize_empty_string :
  is_validation_error
    (deserialize (Category := NamedCategory) Product_new (JString "")).
Proof. eexists. reflexivity. Qed.

Example deserialize_unknown_category :
  is_validation_error
    (deserialize (Category := NamedCategory) Product_new
       (JObject [ ("name", JString "Fedora");
                  ("description", JString "A red hat");
                  ("price", JString "12.50");
                  ("available", JBool true);
                  ("category", JString "NoWay") ])).
Proof. eexists. reflexivity. Qed.

(** *** GET /products *)

(** C3, as stated, fails on [GET /products?NAME=Fedora]: the key is none of
    name, category and available, and the answer is not 400 (it is 200, the
    key being put in lower case before it is looked at). *)
Lemma list_all_products_upper_case_key :
  ~ (~ In "NAME" ["name"; "category"; "available"] ->
     status_code (fst (GET_products (query [("NAME", "Fedora")]) fedora_store))
     = status.HTTP_400_BAD_REQUEST).
Proof.
  intros Himp.
  assert (Hs : status_code
                 (fst (GET_products (query [("NAME", "Fedora")]) fedora_store))
               = status.HTTP_400_BAD_REQUEST).
  { apply Himp. simpl. intros [E|[E|[E|[]]]]; discriminate E. }
  vm_compute in Hs. discriminate Hs.
Qed.

Example list_all_products_upper_case_key_run :
  GET_products (query [("NAME", "Fedora")]) fedora_store
  = (mkResponse status.HTTP_200_OK
       (jsonify (JArray (map serialize (rows fedora_store)))) [],
     fedora_store).
Proof. reflexivity. Qed.

(** The requests of the tests: two keys, an unknown key, no parameter. *)
Lemma list_all_products_query_parameters_samples :
  (In ("name", "hello") (args (query [("name", "hello"); ("availability", "false")]))
   /\ In ("availability", "false")
        (args (query [("name", "hello"); ("availability", "false")]))
   /\ "name" <> "availability"
   /\ status_code
        (fst (GET_products
                (query [("name", "hello"); ("availability", "false")])
                fedora_store))
      = status.HTTP_400_BAD_REQUEST)
  /\ (args (query [("goaway", "no")]) = [("goaway", "no")]
      /\ lower "goaway" <> ""
      /\ ~ In (lower "goaway") ["name"; "category"; "available"]
      /\ status_code (fst (GET_products (query [("goaway", "no")]) fedora_store))
         = status.HTTP_400_BAD_REQUEST)
  /\ (args (query []) = []
      /\ GET_products (query []) fedora_store
         = (mkResponse status.HTTP_200_OK
              (jsonify (JArray (map serialize (rows fedora_store)))) [],
            fedora_store)).
Proof.
  assert (Hne : "name" <> "availability") by discriminate.
  assert (Hempty : lower "goaway" <> "") by discriminate.
  assert (Hnot : ~ In (lower "goaway") ["name"; "category"; "available"]).
  { simpl. intros [E|[E|[E|[]]]]; discriminate E. }
  split; [|split].
  - refine (conj (or_introl eq_refl) (conj (or_intror (or_introl eq_refl))
              (conj Hne _))).
    exact (proj1 (list_all_products_query_parameters
                    (query [("name", "hello"); ("availability", "false")])
                    fedora_store)
             "name" "hello" "availability" "false"
             (or_introl eq_refl) (or_intror (or_introl eq_refl)) Hne).
  - refine (conj eq_refl (conj Hempty (conj Hnot _))).
    exact (proj1 (proj2 (list_all_products_query_parameters
                           (query [("goaway", "no")]) fedora_store))
             "goaway" "no" eq_refl Hempty Hnot).
  - refine (conj eq_refl _).
    exact (proj2 (proj2 (list_all_products_query_parameters
                           (query []) fedora_store)) eq_refl).
Defined.

(** Two parameters under one key count as one key. *)
Example list_all_products_repeated_key :
  MultiDict_len [("name", "Fedora"); ("name", "Hat")] = 1
  /\ status_code
       (fst (GET_products (query [("name", "Fedora"); ("name", "Hat")])
               fedora_store))
     = status.HTTP_200_OK.
Proof. split; reflexivity. Qed.

(** [category=__members__] on the sample enumeration. *)
Lemma list_all_products_category_class_attribute_sample :
  Category_of_name (Category := NamedCategory) "__members__" = None
  /\ getattr_Category (Category := NamedCategory) "__members__"
     = Some (ClassAttribute "__members__")
  /\ status_code
       (fst (GET_products (query [("category", "__members__")]) fedora_store))
     <> status.HTTP_400_BAD_REQUEST.
Proof.
  split; [reflexivity|].
  exact (list_all_products_category_class_attribute [] None fedora_store
           eq_refl).
Defined.

Example list_all_products_category_unknown :
  status_code
    (fst (GET_products (query [("category", "hacking-bs")]) fedora_store))
  = status.HTTP_400_BAD_REQUEST.
Proof. reflexivity. Qed.

Example list_all_products_category_lower_case :
  status_code
    (fst (GET_products (query [("category", "cloths")]) fedora_store))
  = status.HTTP_400_BAD_REQUEST.
Proof. reflexivity. Qed.

Example list_all_products_category_cloths :
  GET_products (query [("category", "CLOTHS")]) fedora_store
  = (mkResponse status.HTTP_200_OK
       (jsonify (JArray (map serialize (rows fedora_store)))) [],
     fedora_store).
Proof. reflexivity. Qed.

Example list_all_products_available_True :
  GET_products (query [("available", "True")]) fedora_store
  = (mkResponse status.HTTP_200_OK
       (jsonify (JArray (map serialize (rows fedora_store)))) [],
     fedora_store).
Proof. reflexivity. Qed.

Example list_all_products_available_yes :
  GET_products (query [("available", "yes")]) fedora_store
  = (mkResponse status.HTTP_200_OK (jsonify (JArray [])) [], fedora_store).
Proof. reflexivity. Qed.

(** *** POST /products *)

(** The Fedora posted to an empty store, its price as text. *)
Lemma create_products_created_fedora :
  Store_ok empty_store
  /\ headers_get "Content-Type" (headers post_fedora) = Some "application/json"
  /\ body_json post_fedora = Some fedora_payload
  /\ deserialize Product_new fedora_payload = Ok fedora
  /\ status_code (fst (POST_products post_fedora empty_store))
     = status.HTTP_201_CREATED
  /\ (exists created : Product,
        data (fst (POST_products post_fedora empty_store))
        = jsonify (serialize created)
        /\ id created = Some 1
        /\ json_field "id" (serialize created) = Some (JInt 1)
        /\ json_field "name" (serialize created) = Some (JString "Fedora")
        /\ json_field "price" (serialize created) = Some (JString "12.50"))
  /\ exists location : string,
       headers_get "Location"
         (response_headers (fst (POST_products post_fedora empty_store)))
       = Some location
       /\ GET_url location (snd (POST_products post_fedora empty_store))
          = Some (mkResponse status.HTTP_200_OK
                    (data (fst (POST_products post_fedora empty_store))) [],
                  snd (POST_products post_fedora empty_store)).
Proof.
  pose proof (create_products_created post_fedora empty_store fedora_payload
                fedora empty_store_ok eq_refl eq_refl eq_refl) as Hc.
  cbv zeta in Hc.
  destruct Hc as [Hstatus [[created Hcreated] Hlocation]].
  destruct Hcreated
    as [Hdata [_ [Hid [Hjid [Hname [_ [_ [_ [_ [_ [Htext _]]]]]]]]]]].
  refine (conj empty_store_ok (conj eq_refl (conj eq_refl (conj eq_refl
            (conj Hstatus (conj _ Hlocation)))))).
  exists created.
  exact (conj Hdata (conj Hid (conj Hjid (conj Hname (Htext eq_refl))))).
Defined.

(** C6, as stated, fails on the price given as the JSON number 12.50: the
    body that comes back does not have ["12.50"] under ["price"] (it has
    ["12.5"]: the number is the float 12.5, and its digits are those of the
    float). *)
Lemma create_products_number_price :
  ~ (exists body : json,
       response_json (fst (POST_products post_fedora_number empty_store))
       = Some body
       /\ json_field "price" body = Some (JString "12.50")).
Proof.
  intros [body [Hbody Hprice]].
  vm_compute in Hbody. injection Hbody as <-.
  vm_compute in Hprice. discriminate Hprice.
Qed.

Example create_products_number_run :
  POST_products post_fedora_number empty_store
  = (mkResponse status.HTTP_201_CREATED
       (jsonify
          (JObject [ ("id", JInt 1);
                     ("name", JString "Fedora");
                     ("description", JString "A red hat");
                     ("price", JString "12.5");
                     ("available", JBool true);
                     ("category", JString "CLOTHS") ]))
       [("Location", "http://localhost/products/1")],
     mkStore [mkProduct (Some 1) "Fedora" "A red hat"
                (mkDecimal false "125" 1) true CLOTHS] 2).
Proof. reflexivity. Qed.

Example create_products_fedora_run :
  POST_products post_fedora empty_store
  = (mkResponse status.HTTP_201_CREATED
       (jsonify
          (JObject [ ("id", JInt 1);
                     ("name", JString "Fedora");
                     ("description", JString "A red hat");
                     ("price", JString "12.50");
                     ("available", JBool true);
                     ("category", JString "CLOTHS") ]))
       [("Location", "http://localhost/products/1")],
     fedora_store).
Proof. reflexivity. Qed.

Example get_location_run :
  GET_url "http://localhost/products/1" fedora_store
  = Some (mkResponse status.HTTP_200_OK
            (jsonify (serialize
               (mkProduct (Some 1) "Fedora" "A red hat" price_12_50 true CLOTHS)))
            [],
          fedora_store).
Proof. reflexivity. Qed.

(** Failed posts: no Content-Type, and ["available"] as a string. *)
Lemma create_products_failure_keeps_store_samples :
  (status_code (fst (POST_products post_without_content_type fedora_store))
   = status.HTTP_415_UNSUPPORTED_MEDIA_TYPE
   /\ snd (POST_products post_without_content_type fedora_store) = fedora_store)
  /\ (status_code (fst (POST_products post_string_available fedora_store))
      = status.HTTP_400_BAD_REQUEST
      /\ snd (POST_products post_string_available fedora_store) = fedora_store).
Proof.
  split.
  - refine (conj eq_refl _).
    exact (create_products_failure_keeps_store post_without_content_type
             fedora_store (or_introl eq_refl)).
  - refine (conj eq_refl _).
    exact (create_products_failure_keeps_store post_string_available
             fedora_store (or_intror eq_refl)).
Defined.

(** *** The Content-Type check *)

(** C7, as stated, fails on DELETE: a request without Content-Type for an
    existing product is not answered 415 (it is answered 204). *)
Lemma delete_products_without_content_type :
  ~ (headers_get "Content-Type" (headers bare_request)
     <> Some "application/json" ->
     status_code (fst (DELETE_product (Category := NamedCategory)
                         bare_request 1 fedora_store))
     = status.HTTP_415_UNSUPPORTED_MEDIA_TYPE).
Proof.
  intros Himp.
  assert (Hs : status_code (fst (DELETE_product (Category := NamedCategory)
                                   bare_request 1 fedora_store))
               = status.HTTP_415_UNSUPPORTED_MEDIA_TYPE).
  { apply Himp. discriminate. }
  vm_compute in Hs. discriminate Hs.
Qed.

Example delete_products_without_content_type_run :
  DELETE_product bare_request 1 fedora_store
  = (mkResponse status.HTTP_204_NO_CONTENT (BodyText "") [], mkStore [] 2).
Proof. reflexivity. Qed.

(** A Content-Type that only contains ["application/json"]. *)
Lemma content_type_of_mutating_endpoints_charset :
  headers_get "Content-Type" (headers post_with_charset)
  <> Some "application/json"
  /\ status_code (fst (POST_products post_with_charset fedora_store))
     = status.HTTP_415_UNSUPPORTED_MEDIA_TYPE
  /\ status_code (fst (PUT_product post_with_charset 1 fedora_store))
     = status.HTTP_415_UNSUPPORTED_MEDIA_TYPE.
Proof.
  assert (Hne : headers_get "Content-Type" (headers post_with_charset)
                <> Some "application/json") by discriminate.
  refine (conj Hne _).
  exact (proj1 (content_type_of_mutating_endpoints post_with_charset 1
                  fedora_store) Hne).
Defined.

(** *** PUT /products/{id} *)

(** C9, as stated, fails on a body that is not JSON text: with
    Content-Type ["application/json"] and an id that does not exist, the
    answer is not 404 (it is 400, from [get_json], before the lookup). *)
Lemma update_products_not_json_before_lookup :
  ~ (headers_get "Content-Type" (headers not_json_request)
     = Some "application/json" ->
     find (has_id 666) (rows fedora_store) = None ->
     status_code (fst (PUT_product not_json_request 666 fedora_store))
     = status.HTTP_404_NOT_FOUND).
Proof.
  intros Himp.
  assert (Hs : status_code (fst (PUT_product not_json_request 666 fedora_store))
               = status.HTTP_404_NOT_FOUND)
    by (apply Himp; reflexivity).
  vm_compute in Hs. discriminate Hs.
Qed.

Example update_products_not_json_run :
  PUT_product not_json_request 666 fedora_store
  = (mkResponse status.HTTP_400_BAD_REQUEST
       (BodyError "Failed to decode JSON object") [], fedora_store).
Proof. reflexivity. Qed.

(** Id 666 does not exist: 415 without Content-Type; with it, 400 for a
    body that is not JSON text and 404 for a JSON body, even one that
    [deserialize] rejects. *)
Lemma update_products_check_order_samples :
  (headers_get "Content-Type" (headers post_without_content_type)
   <> Some "application/json"
   /\ status_code (fst (PUT_product post_without_content_type 666 fedora_store))
      = status.HTTP_415_UNSUPPORTED_MEDIA_TYPE
   /\ snd (PUT_product post_without_content_type 666 fedora_store)
      = fedora_store)
  /\ (headers_get "Content-Type" (headers not_json_request)
      = Some "application/json"
      /\ body_json not_json_request = None
      /\ status_code (fst (PUT_product not_json_request 666 fedora_store))
         = status.HTTP_400_BAD_REQUEST
      /\ snd (PUT_product not_json_request 666 fedora_store) = fedora_store)
  /\ (headers_get "Content-Type" (headers post_string_available)
      = Some "application/json"
      /\ body_json post_string_available = Some string_available_payload
      /\ find (has_id 666) (rows fedora_store) = None
      /\ is_validation_error
           (deserialize (Category := NamedCategory) Product_new
              string_available_payload)
      /\ status_code (fst (PUT_product post_string_available 666 fedora_store))
         = status.HTTP_404_NOT_FOUND
      /\ snd (PUT_product post_string_available 666 fedora_store)
         = fedora_store).
Proof.
  assert (Hne : headers_get "Content-Type" (headers post_without_content_type)
                <> Some "application/json") by discriminate.
  split; [|split].
  - refine (conj Hne _).
    exact (proj1 (update_products_check_order post_without_content_type 666
                    fedora_store) Hne).
  - refine (conj eq_refl (conj eq_refl _)).
    exact (proj1 (proj2 (update_products_check_order not_json_request 666
                           fedora_store)) eq_refl eq_refl).
  - refine (conj eq_refl (conj eq_refl (conj eq_refl
              (conj (ex_intro _ _ eq_refl) _)))).
    exact (proj2 (proj2 (update_products_check_order post_string_available 666
                           fedora_store))
             string_available_payload eq_refl eq_refl eq_refl).
Defined.

(** *** DELETE /products/{id} *)

Lemma delete_products_twice_fedora :
  (exists product, find (has_id 1) (rows fedora_store) = Some product)
  /\ status_code (fst (DELETE_product bare_request 1 fedora_store))
     = status.HTTP_204_NO_CONTENT
  /\ data (fst (DELETE_product bare_request 1 fedora_store)) = BodyText ""
  /\ find (has_id 1)
       (rows (snd (DELETE_product bare_request 1 fedora_store))) = None
  /\ status_code
       (fst (DELETE_product bare_request 1
               (snd (DELETE_product bare_request 1 fedora_store))))
     = status.HTTP_404_NOT_FOUND.
Proof.
  assert (Hex : exists product,
             find (has_id 1) (rows fedora_store) = Some product)
    by (eexists; reflexivity).
  refine (conj Hex _).
  exact (delete_products_twice bare_request bare_request 1 fedora_store Hex).
Defined.

Example list_all_products_category_members_run :
  GET_products (query [("category", "__members__")]) fedora_store
  = (mkResponse status.HTTP_500_INTERNAL_SERVER_ERROR
       (BodyError "not a Category: __members__") [], fedora_store).
Proof. reflexivity. Qed.

(* ===================================================================== *)
(** * The further properties on the sample data *)
(* ===================================================================== *)

Lemma bowler_wf : Decimal_wf (price bowler).
Proof. split; reflexivity. Qed.

Lemma fedora_wf : Decimal_wf (price fedora).
Proof. split; reflexivity. Qed.

Lemma list_all_products_same_key_sample :
  Forall (fun kv => fst kv = "name") [("name", "Hat")]
  /\ GET_products (query [("name", "Fedora"); ("name", "Hat")]) fedora_store
     = GET_products (query [("name", "Fedora")]) fedora_store.
Proof.
  assert (Hsame : Forall (fun kv : string * string => fst kv = "name")
                    [("name", "Hat")])
    by (constructor; [reflexivity|constructor]).
  exact (conj Hsame
           (list_all_products_same_key [] None "name" "Fedora"
              [("name", "Hat")] fedora_store Hsame)).
Defined.

Lemma list_all_products_accepts_values_sample :
  (lower "Available" = "name" \/ lower "Available" = "available")
  /\ status_code
       (fst (GET_products (query [("Available", "banana")]) fedora_store))
     = status.HTTP_200_OK.
Proof.
  exact (conj (or_intror eq_refl)
           (list_all_products_accepts_values [] None "Available" "banana"
              fedora_store (or_intror eq_refl))).
Defined.

Lemma list_all_products_selection_sample :
  status_code (fst (GET_products (query [("name", "Bowler")]) fedora_store))
  = status.HTTP_200_OK
  /\ exists keep : Product -> bool,
       data (fst (GET_products (query [("name", "Bowler")]) fedora_store))
       = jsonify (JArray (map serialize (filter keep (rows fedora_store)))).
Proof.
  exact (conj eq_refl
           (list_all_products_selection (query [("name", "Bowler")])
              fedora_store eq_refl)).
Defined.

Lemma list_all_products_by_name_sample :
  lower "NAME" = "name"
  /\ GET_products (query [("NAME", "Fedora")]) fedora_store
     = (mkResponse status.HTTP_200_OK
          (jsonify (JArray (map serialize
             (filter (fun p => String.eqb (name p) "Fedora")
                (rows fedora_store))))) [], fedora_store).
Proof.
  exact (conj eq_refl
           (proj1 (list_all_products_by_name [] None "NAME" "Fedora"
                     fedora_store eq_refl))).
Defined.

(** The Bowler put in the place of the Fedora. *)
Lemma update_products_updated_sample :
  headers_get "Content-Type" (headers (json_request (serialize bowler)))
  = Some "application/json"
  /\ body_json (json_request (serialize bowler)) = Some (serialize bowler)
  /\ (exists stored, find (has_id 1) (rows fedora_store) = Some stored)
  /\ fst (PUT_product (json_request (serialize bowler)) 1 fedora_store)
     = mkResponse status.HTTP_200_OK
         (jsonify (serialize (set_id (Some 1) bowler))) []
  /\ id (set_id (Some 1) bowler) = Some 1.
Proof.
  pose proof (update_products_updated (json_request (serialize bowler)) 1
                fedora_store (serialize bowler)
                (mkProduct (Some 1) "Fedora" "A red hat" price_12_50 true CLOTHS)
                (set_id (Some 1) bowler) eq_refl eq_refl eq_refl eq_refl) as Hu.
  cbv zeta in Hu.
  exact (conj eq_refl (conj eq_refl (conj (ex_intro _ _ eq_refl)
           (conj (proj1 Hu) (proj1 (proj2 Hu)))))).
Defined.

Lemma update_products_failure_keeps_store_sample :
  status_code (fst (PUT_product post_string_available 1 fedora_store))
  <> status.HTTP_200_OK
  /\ snd (PUT_product post_string_available 1 fedora_store) = fedora_store.
Proof.
  assert (Hne : status_code
                  (fst (PUT_product post_string_available 1 fedora_store))
                <> status.HTTP_200_OK) by discriminate.
  exact (conj Hne
           (proj2 (update_products_failure_keeps_store post_string_available 1
                     fedora_store) Hne)).
Defined.

Lemma update_products_serialized_sample :
  Decimal_wf (price bowler)
  /\ (exists stored, find (has_id 1) (rows fedora_store) = Some stored)
  /\ fst (PUT_product (json_request (serialize bowler)) 1 fedora_store)
     = mkResponse status.HTTP_200_OK
         (jsonify (serialize (set_id (Some 1) bowler))) [].
Proof.
  exact (conj bowler_wf (conj (ex_intro _ _ eq_refl)
           (proj1 (update_products_serialized 1 fedora_store
                     (mkProduct (Some 1) "Fedora" "A red hat" price_12_50 true
                        CLOTHS)
                     bowler bowler_wf eq_refl)))).
Defined.

Lemma delete_products_frame_sample :
  Store_ok fedora_store
  /\ (exists p, find (has_id 1) (rows fedora_store) = Some p)
  /\ S (List.length
          (rows (snd (DELETE_product (Category := NamedCategory)
                        bare_request 1 fedora_store))))
     = List.length (rows fedora_store)
  /\ 2 <> 1
  /\ find (has_id 2)
       (rows (snd (DELETE_product (Category := NamedCategory)
                     bare_request 1 fedora_store)))
     = find (has_id 2) (rows fedora_store).
Proof.
  pose proof (delete_products_frame bare_request 1 fedora_store) as Hd.
  cbv zeta in Hd.
  assert (Hne : 2 <> 1) by discriminate.
  exact (conj fedora_store_ok (conj (ex_intro _ _ eq_refl)
           (conj (proj2 (proj2 (proj2 Hd)) fedora_store_ok
                    (ex_intro _ _ eq_refl))
                 (conj Hne (proj1 (proj2 Hd) 2 Hne))))).
Defined.

Lemma create_products_adds_one_sample :
  status_code (fst (POST_products post_fedora empty_store))
  = status.HTTP_201_CREATED
  /\ exists created : Product,
       id created = Some (next_id empty_store)
       /\ data (fst (POST_products post_fedora empty_store))
          = jsonify (serialize created)
       /\ snd (POST_products post_fedora empty_store)
          = mkStore (rows empty_store ++ [created]) (next_id empty_store + 1).
Proof.
  pose proof (create_products_adds_one post_fedora empty_store) as Hc.
  cbv zeta in Hc.
  exact (conj eq_refl (proj1 (proj2 Hc) eq_refl)).
Defined.

Lemma handlers_keep_Store_ok_sample :
  Store_ok fedora_store
  /\ Store_ok (snd (POST_products post_fedora fedora_store))
  /\ Store_ok (snd (PUT_product post_fedora 1 fedora_store))
  /\ Store_ok (snd (DELETE_product post_fedora 1 fedora_store)).
Proof.
  pose proof (handlers_keep_Store_ok post_fedora 1 fedora_store
                fedora_store_ok) as Hk.
  exact (conj fedora_store_ok
           (conj (proj1 Hk)
              (conj (proj1 (proj2 Hk)) (proj1 (proj2 (proj2 Hk)))))).
Defined.

Lemma create_products_of_serialized_sample :
  Decimal_wf (price fedora)
  /\ Store_ok empty_store
  /\ status_code (fst (POST_products (json_request (serialize fedora))
                         empty_store))
     = status.HTTP_201_CREATED
  /\ response_id (fst (POST_products (json_request (serialize fedora))
                         empty_store))
     = Some (next_id empty_store).
Proof.
  pose proof (create_products_of_serialized fedora empty_store fedora_wf
                empty_store_ok) as Hc.
  cbv zeta in Hc.
  exact (conj fedora_wf (conj empty_store_ok
           (conj (proj1 Hc) (proj1 (proj2 (proj2 Hc)))))).
Defined.

Lemma two_products_wf :
  Forall (fun p : @Product NamedCategory => Decimal_wf (price p))
    [fedora; bowler].
Proof.
  constructor; [exact fedora_wf|].
  constructor; [exact bowler_wf|constructor].
Qed.

Lemma _create_products_creates_sample :
  Forall (fun p : @Product NamedCategory => Decimal_wf (price p))
    [fedora; bowler]
  /\ exists (products : list Product) (db' : Store),
       _create_products [fedora; bowler] empty_store = Some (products, db')
       /\ products = number_from (next_id empty_store) [fedora; bowler]
       /\ List.length products = List.length [fedora; bowler]
       /\ rows db' = (rows empty_store ++ products)%list
       /\ next_id db'
          = next_id empty_store + Z.of_nat (List.length [fedora; bowler])
       /\ (Store_ok empty_store -> Store_ok db').
Proof.
  exact (conj two_products_wf
           (_create_products_creates [fedora; bowler] empty_store
              two_products_wf)).
Defined.

Example _create_products_run_two :
  _create_products [fedora; bowler] empty_store
  = Some ([set_id (Some 1) fedora; set_id (Some 2) bowler],
          mkStore [set_id (Some 1) fedora; set_id (Some 2) bowler] 3).
Proof. reflexivity. Qed.

Lemma list_after_create_products_sample :
  Forall (fun p : @Product NamedCategory => Decimal_wf (price p))
    [fedora; bowler]
  /\ rows empty_store = []
  /\ _create_products [fedora; bowler] empty_store
     = Some ([set_id (Some 1) fedora; set_id (Some 2) bowler],
             mkStore [set_id (Some 1) fedora; set_id (Some 2) bowler] 3)
  /\ get_product_count
       (mkStore [set_id (Some 1) fedora; set_id (Some 2) bowler] 3)
     = Some (List.length [fedora; bowler])
  /\ fst (GET_products (query [("name", "Bowler")])
            (mkStore [set_id (Some 1) fedora; set_id (Some 2) bowler] 3))
     = mkResponse status.HTTP_200_OK
         (jsonify (JArray (map serialize
            (filter (fun p => String.eqb (name p) "Bowler")
               [set_id (Some 1) fedora; set_id (Some 2) bowler])))) [].
Proof.
  pose proof (list_after_create_products [fedora; bowler]
                [set_id (Some 1) fedora; set_id (Some 2) bowler]
                empty_store
                (mkStore [set_id (Some 1) fedora; set_id (Some 2) bowler] 3)
                two_products_wf eq_refl eq_refl) as Hl.
  exact (conj two_products_wf (conj eq_refl (conj eq_refl
           (conj (proj1 Hl) (proj1 (proj2 Hl) "Bowler"))))).
Defined.

Lemma create_get_delete_get_sample :
  Decimal_wf (price fedora)
  /\ Store_ok empty_store
  /\ status_code
       (fst (DELETE_product bare_request (next_id empty_store)
               (snd (POST_products (json_request (serialize fedora))
                       empty_store))))
     = status.HTTP_204_NO_CONTENT
  /\ status_code
       (fst (GET_product (next_id empty_store)
               (snd (DELETE_product bare_request (next_id empty_store)
                       (snd (POST_products (json_request (serialize fedora))
                               empty_store))))))
     = status.HTTP_404_NOT_FOUND.
Proof.
  pose proof (create_get_delete_get fedora bare_request empty_store fedora_wf
                empty_store_ok) as Hc.
  cbv zeta in Hc.
  exact (conj fedora_wf (conj empty_store_ok
           (conj (proj1 (proj2 Hc)) (proj1 (proj2 (proj2 Hc)))))).
Defined.

Lemma create_then_find_sample :
  Store_ok fedora_store
  /\ exists (created : Product) (db' : Store),
       create bowler fedora_store = (Ok created, db')
       /\ id created = Some (next_id fedora_store)
       /\ Product_find (next_id fedora_store) db' = (Ok (Some created), db').
Proof.
  destruct (create_then_find bowler fedora_store fedora_store_ok)
    as [created [db' [Hc [Hid [Hfind _]]]]].
  exact (conj fedora_store_ok
           (ex_intro _ created (ex_intro _ db' (conj Hc (conj Hid Hfind))))).
Defined.

Lemma create_then_update_sample :
  Store_ok fedora_store
  /\ exists (created : Product) (db1 db2 : Store),
       create bowler fedora_store = (Ok created, db1)
       /\ update (set_description "This is the new description" created) db1
          = (Ok tt, db2)
       /\ rows db2
          = (rows fedora_store
             ++ [set_description "This is the new description" created])%list.
Proof.
  destruct (create_then_update bowler "This is the new description"
              fedora_store fedora_store_ok)
    as [created [db1 [db2 [Hc [Hu [Hrows _]]]]]].
  exact (conj fedora_store_ok
           (ex_intro _ created (ex_intro _ db1 (ex_intro _ db2
              (conj Hc (conj Hu Hrows)))))).
Defined.

Lemma create_two_delete_first_sample :
  Store_ok empty_store
  /\ exists (product_1 product_2 : Product) (db1 db2 db3 : Store),
       create fedora empty_store = (Ok product_1, db1)
       /\ create bowler db1 = (Ok product_2, db2)
       /\ delete product_1 db2 = (Ok tt, db3)
       /\ rows db3 = (rows empty_store ++ [product_2])%list.
Proof.
  destruct (create_two_delete_first fedora bowler empty_store empty_store_ok)
    as [p1 [p2 [db1 [db2 [db3 [H1 [H2 [H3 [Hrows _]]]]]]]]].
  exact (conj empty_store_ok
           (ex_intro _ p1 (ex_intro _ p2 (ex_intro _ db1 (ex_intro _ db2
              (ex_intro _ db3 (conj H1 (conj H2 (conj H3 Hrows))))))))).
Defined.
